(** * Verification of the bank-transaction ETL pipeline (etl_pipeline.py)

    The development embeds [extract], [transform], [load] and [main] of
    etl_pipeline.py, together with the parts of the Python standard library
    the transform stage relies on:

    - [datetime.strptime] with the format '%Y-%m-%d %H:%M:%S', as the regular
      expression CPython's _strptime builds for it, matched with backtracking
      in priority order, followed by the range checks of [datetime];
    - [strftime] for '%Y-%m-%d', '%H:%M:%S' and '%A';
    - binary64 arithmetic on amounts, as the kernel's primitive floats;
    - the ':.2f' format of a float, by exact integer arithmetic;
    - insertion-ordered dictionaries and the stable [sorted].

    Characters are code points below 256 (Rocq's [ascii]); a string is the
    sequence of its code points. *)

From Stdlib Require Import ZArith QArith Qabs Qpower Qfield String Ascii List Lia
  Bool.
From Stdlib Require Import Floats.PrimFloat Floats.SpecFloat Floats.FloatOps.
From stdpp Require Import base option list strings gmap sorting.

Local Open Scope Z_scope.

(* ===================================================================== *)
(** * Exceptions and fallible computations *)
(* ===================================================================== *)

(** The exception classes the pipeline can meet. *)
Inductive exn : Type :=
  | ValueError
  | KeyError
  | ZeroDivisionError
  | FileNotFoundError
  | OSError.

(** A computation either returns a value or raises. *)
Inductive result (A : Type) : Type :=
  | Ok (a : A)
  | Raise (e : exn).
Arguments Ok {A} a.
Arguments Raise {A} e.

#[global] Instance result_ret : MRet result := fun _ a => Ok a.
#[global] Instance result_bind : MBind result := fun _ _ f m =>
  match m with
  | Ok a => f a
  | Raise e => Raise e
  end.

(* ===================================================================== *)
(** * Characters and decimal digits *)
(* ===================================================================== *)

Module Chars.

Definition code (c : ascii) : Z := Z.of_N (N_of_ascii c).

(** Regex class [\d], and the ranges [[lo-hi]]. *)
Definition in_range (lo hi c : ascii) : bool :=
  (code lo <=? code c) && (code c <=? code hi).

Definition is_digit (c : ascii) : bool := in_range "0" "9" c.

(** Regex class [\s] on str patterns: the code points for which
    str.isspace() holds (below 256: TAB..CR, FS..US, SPACE, NEL, NBSP). *)
Definition is_space (c : ascii) : bool :=
  let n := code c in
  ((9 <=? n) && (n <=? 13)) || ((28 <=? n) && (n <=? 32))
  || (n =? 133) || (n =? 160).

Definition digit_val (c : ascii) : Z := code c - 48.

Definition digit_char (d : Z) : ascii := ascii_of_N (Z.to_N (48 + d)).

(** [fixed_dec w n]: the [w] low decimal digits of [n], most significant
    first; for [0 <= n < 10^w] this is C's zero-padded "%0wd". *)
Fixpoint fixed_dec (w : nat) (n : Z) : string :=
  match w with
  | O => EmptyString
  | S w' => String.append (fixed_dec w' (n / 10))
              (String (digit_char (n mod 10)) EmptyString)
  end.

Fixpoint dec_loop (fuel : nat) (n : Z) (acc : string) : string :=
  let acc' := String (digit_char (n mod 10)) acc in
  match fuel with
  | O => acc'
  | S fuel' => if n <? 10 then acc' else dec_loop fuel' (n / 10) acc'
  end.

(** The decimal numeral of [n >= 0], without leading zeros: "%d". *)
Definition decimal (n : Z) : string :=
  dec_loop (Z.to_nat (Z.log2 n)) n EmptyString.

(** Value of a run of decimal digits, left to right from [acc];
    [None] on any other character. *)
Fixpoint digits_val (acc : Z) (s : string) : option Z :=
  match s with
  | EmptyString => Some acc
  | String c s' =>
      if is_digit c then digits_val (10 * acc + digit_val c) s' else None
  end.

Fixpoint lstrip (s : string) : string :=
  match s with
  | String c s' => if is_space c then lstrip s' else s
  | EmptyString => EmptyString
  end.

(** Python's [int(s)] on the texts the timestamp pattern can capture:
    leading white space is skipped, then at least one decimal digit and
    nothing else. *)
Definition py_int (s : string) : result Z :=
  match lstrip s with
  | EmptyString => Raise ValueError
  | t => match digits_val 0 t with
         | Some n => Ok n
         | None => Raise ValueError
         end
  end.

End Chars.

(* ===================================================================== *)
(** * Backtracking regular expressions *)
(* ===================================================================== *)

Module Regex.
Import Chars.

(** The fragment of Python's [re] syntax that occurs in the pattern of
    '%Y-%m-%d %H:%M:%S'. *)
Inductive regex : Type :=
  | Lit (c : ascii)                 (* a literal character *)
  | Range (lo hi : ascii)           (* [lo-hi] *)
  | Digit                           (* \d *)
  | Spaces                          (* \s+ , greedy *)
  | Seq (r1 r2 : regex)             (* r1 r2 *)
  | Alt (r1 r2 : regex)             (* r1|r2 , left first *)
  | Group (name : string) (r : regex). (* (?P<name>r) *)

(** One way of matching a prefix: the text consumed, the named groups
    bound on the way, and the text left. *)
Record hit : Type := Hit {
  consumed : string;
  groups : list (string * string);
  rest : string
}.

Definition one_char (p : ascii → bool) (s : string) : list hit :=
  match s with
  | String c s' => if p c then [Hit (String c EmptyString) [] s'] else []
  | EmptyString => []
  end.

(** [\s+]: the longest run first, then shorter ones, down to one. *)
Fixpoint spaces (s : string) : list hit :=
  match s with
  | String c s' =>
      if is_space c
      then map (fun h => Hit (String c (consumed h)) [] (rest h)) (spaces s')
           ++ [Hit (String c EmptyString) [] s']
      else []
  | EmptyString => []
  end.

(** All the ways [r] matches a prefix of [s], in the order a backtracking
    matcher tries them. *)
Fixpoint matches (r : regex) (s : string) : list hit :=
  match r with
  | Lit c => one_char (Ascii.eqb c) s
  | Range lo hi => one_char (in_range lo hi) s
  | Digit => one_char is_digit s
  | Spaces => spaces s
  | Seq r1 r2 =>
      h1 ← matches r1 s;
      h2 ← matches r2 (rest h1);
      [Hit (String.append (consumed h1) (consumed h2))
           (groups h1 ++ groups h2) (rest h2)]
  | Alt r1 r2 => matches r1 s ++ matches r2 s
  | Group name r' =>
      h ← matches r' s;
      [Hit (consumed h) ((name, consumed h) :: groups h) (rest h)]
  end.

(** [re.match]: the first way, if any. *)
Definition re_match (r : regex) (s : string) : option hit :=
  head (matches r s).

(** [found_dict[name]]. *)
Fixpoint group (name : string) (gs : list (string * string)) : option string :=
  match gs with
  | [] => None
  | (n, v) :: gs' => if String.eqb n name then Some v else group name gs'
  end.

End Regex.

(* ===================================================================== *)
(** * datetime: construction, parsing and formatting *)
(* ===================================================================== *)

Module Datetime.
Import Chars Regex.

Record datetime : Type := mk_dt {
  year : Z; month : Z; day : Z;
  hour : Z; minute : Z; second : Z
}.

Definition MINYEAR : Z := 1.
Definition MAXYEAR : Z := 9999.

Definition is_leap (y : Z) : bool :=
  (y mod 4 =? 0) && (negb (y mod 100 =? 0) || (y mod 400 =? 0)).

Definition DAYS_IN_MONTH : list Z :=
  [31; 28; 31; 30; 31; 30; 31; 31; 30; 31; 30; 31].

Definition days_in_month (y m : Z) : Z :=
  if (m =? 2) && is_leap y then 29
  else nth (Z.to_nat (m - 1)) DAYS_IN_MONTH 0.

Definition DAYS_BEFORE_MONTH : list Z :=
  [0; 31; 59; 90; 120; 151; 181; 212; 243; 273; 304; 334].

Definition days_before_year (y : Z) : Z :=
  let y' := y - 1 in y' * 365 + y' / 4 - y' / 100 + y' / 400.

Definition days_before_month (y m : Z) : Z :=
  nth (Z.to_nat (m - 1)) DAYS_BEFORE_MONTH 0
  + (if (2 <? m) && is_leap y then 1 else 0).

Definition ymd2ord (y m d : Z) : Z :=
  days_before_year y + days_before_month y m + d.

(** The range checks of the [datetime] constructor. *)
Definition valid_date (y m d : Z) : bool :=
  (MINYEAR <=? y) && (y <=? MAXYEAR)
  && (1 <=? m) && (m <=? 12)
  && (1 <=? d) && (d <=? days_in_month y m).

Definition valid_time (H M S : Z) : bool :=
  (0 <=? H) && (H <=? 23) && (0 <=? M) && (M <=? 59)
  && (0 <=? S) && (S <=? 59).

Definition valid (dt : datetime) : bool :=
  valid_date (year dt) (month dt) (day dt)
  && valid_time (hour dt) (minute dt) (second dt).

Definition make (y m d H M S : Z) : result datetime :=
  if valid_date y m d && valid_time H M S
  then Ok (mk_dt y m d H M S)
  else Raise ValueError.

(** The directives of the format, as _strptime.TimeRE defines them. *)
Definition re_Y : regex :=
  Group "Y" (Seq Digit (Seq Digit (Seq Digit Digit))).
Definition re_m : regex :=
  Group "m" (Alt (Seq (Lit "1") (Range "0" "2"))
            (Alt (Seq (Lit "0") (Range "1" "9"))
                 (Range "1" "9"))).
Definition re_d : regex :=
  Group "d" (Alt (Seq (Lit "3") (Range "0" "1"))
            (Alt (Seq (Range "1" "2") Digit)
            (Alt (Seq (Lit "0") (Range "1" "9"))
            (Alt (Range "1" "9")
                 (Seq (Lit " ") (Range "1" "9")))))).
Definition re_H : regex :=
  Group "H" (Alt (Seq (Lit "2") (Range "0" "3"))
            (Alt (Seq (Range "0" "1") Digit)
                 Digit)).
Definition re_M : regex :=
  Group "M" (Alt (Seq (Range "0" "5") Digit) Digit).
Definition re_S : regex :=
  Group "S" (Alt (Seq (Lit "6") (Range "0" "1"))
            (Alt (Seq (Range "0" "5") Digit)
                 Digit)).

(** The pattern of '%Y-%m-%d %H:%M:%S': the blank of the format stands
    for [\s+]. *)
Definition format_regex : regex :=
  Seq re_Y (Seq (Lit "-") (Seq re_m (Seq (Lit "-") (Seq re_d
 (Seq Spaces (Seq re_H (Seq (Lit ":") (Seq re_M (Seq (Lit ":") re_S))))))))).

(** _strptime reads the groups that were found and keeps its default for
    the others. *)
Definition int_group (name : string) (default : Z)
    (gs : list (string * string)) : result Z :=
  match group name gs with
  | Some v => py_int v
  | None => Ok default
  end.

(** [datetime.strptime(s, '%Y-%m-%d %H:%M:%S')]. *)
Definition strptime (s : string) : result datetime :=
  match re_match format_regex s with
  | None => Raise ValueError            (* does not match format *)
  | Some h =>
      match rest h with
      | String _ _ => Raise ValueError  (* unconverted data remains *)
      | EmptyString =>
          y ← int_group "Y" 1900 (groups h);
          m ← int_group "m" 1 (groups h);
          d ← int_group "d" 1 (groups h);
          H ← int_group "H" 0 (groups h);
          M ← int_group "M" 0 (groups h);
          S ← int_group "S" 0 (groups h);
          make y m d H M S
      end
  end.

(** strftime hands the format to the C library, and '%Y' is where the
    platforms differ: most write the year on four digits, zero-filled;
    glibc writes it as a plain decimal numeral, so that year 999 comes out
    as "999". *)
Inductive year_style : Type :=
  | ZeroFilled
  | Unfilled.

Definition strftime_Y (style : year_style) (y : Z) : string :=
  match style with
  | ZeroFilled => fixed_dec 4 y
  | Unfilled => decimal y
  end.

(** [dt.strftime('%Y-%m-%d')] and [dt.strftime('%H:%M:%S')]: the fields
    other than the year are on two digits everywhere. *)
Definition strftime_date (style : year_style) (dt : datetime) : string :=
  String.append (strftime_Y style (year dt))
 (String.append "-" (String.append (fixed_dec 2 (month dt))
 (String.append "-" (fixed_dec 2 (day dt))))).

Definition strftime_time (dt : datetime) : string :=
  String.append (fixed_dec 2 (hour dt))
 (String.append ":" (String.append (fixed_dec 2 (minute dt))
 (String.append ":" (fixed_dec 2 (second dt))))).

(** [dt.weekday()]: Monday is 0. *)
Definition weekday (dt : datetime) : Z :=
  (ymd2ord (year dt) (month dt) (day dt) + 6) mod 7.

Definition DAY_NAMES : list string :=
  ["Monday"; "Tuesday"; "Wednesday"; "Thursday"; "Friday"; "Saturday";
   "Sunday"]%string.

(** [dt.strftime('%A')] in the C locale. *)
Definition strftime_A (dt : datetime) : string :=
  nth (Z.to_nat (weekday dt)) DAY_NAMES EmptyString.

End Datetime.

(* ===================================================================== *)
(** * Numbers: Python's int and float *)
(* ===================================================================== *)

Module Num.
Import Chars.

(** A Python number as the pipeline meets them: the literal [0] is an
    int, every amount is a float (IEEE 754 binary64). *)
Inductive number : Type :=
  | PyInt (z : Z)
  | PyFloat (f : float).

(** [float(z)]: the nearest binary64, ties to even (Python raises
    OverflowError from 2^1024 on, where this gives an infinity; the
    pipeline converts 0 and list lengths only). *)
Definition float_of_int (z : Z) : float :=
  SF2Prim (binary_normalize prec emax z 0 false).

Definition to_float (x : number) : float :=
  match x with
  | PyInt z => float_of_int z
  | PyFloat f => f
  end.

(** [x + a] for a float [a]: an int operand is converted first. *)
Definition add (x : number) (a : float) : number :=
  PyFloat (PrimFloat.add (to_float x) a).

(** [x / n] for an int [n]. *)
Definition truediv (x : number) (n : Z) : result number :=
  if n =? 0 then Raise ZeroDivisionError
  else Ok (PyFloat (PrimFloat.div (to_float x) (float_of_int n))).

(** The real number a float stands for; [None] for nan and infinities. *)
Definition exact (f : float) : option Q :=
  match Prim2SF f with
  | S754_zero _ => Some 0%Q
  | S754_finite s m e =>
      let v := (inject_Z (Zpos m) * Qpower 2 e)%Q in
      Some (if s then Qopp v else v)
  | S754_infinity _ | S754_nan => None
  end.

(** ** The ':.2f' format *)

(** [n / d] rounded to the nearest integer, ties to even ([0 < d]). *)
Definition round_half_even (n d : Z) : Z :=
  let q := n / d in
  let r := n mod d in
  match 2 * r ?= d with
  | Lt => q
  | Gt => q + 1
  | Eq => if Z.even q then q else q + 1
  end.

(** [m * 2^e * 100], correctly rounded to an integer. *)
Definition cents (m : positive) (e : Z) : Z :=
  if 0 <=? e then Zpos m * 2 ^ e * 100
  else round_half_even (Zpos m * 100) (2 ^ (- e)).

Definition sign_text (s : bool) : string :=
  if s then "-"%string else EmptyString.

(** [format(x, '.2f')]: the decimal expansion of the exact value of [x]
    rounded to two fractional digits, ties to even; the sign of a negative
    zero is kept. *)
Definition format_2f (x : float) : string :=
  match Prim2SF x with
  | S754_nan => "nan"%string
  | S754_infinity s => String.append (sign_text s) "inf"
  | S754_zero s => String.append (sign_text s) "0.00"
  | S754_finite s m e =>
      let q := cents m e in
      String.append (sign_text s)
     (String.append (decimal (q / 100))
     (String.append "." (fixed_dec 2 (q mod 100))))
  end.

End Num.

(* ===================================================================== *)
(** * Occurrence counts: defaultdict(int), sorted, slicing *)
(* ===================================================================== *)

Module Counter.

(** A [defaultdict(int)] keyed by text is the list of its items in
    insertion order. [d[k] += 1] increments the entry of [k] where it
    stands, and appends a new entry with count 1 for an unseen key. *)
Fixpoint incr (k : string) (d : list (string * Z)) : list (string * Z) :=
  match d with
  | [] => [(k, 1)]
  | (k', n) :: d' =>
      if String.eqb k' k then (k', n + 1) :: d' else (k', n) :: incr k d'
  end.

(** [d[k]] for a key that is present. *)
Fixpoint lookup_count (k : string) (d : list (string * Z)) : option Z :=
  match d with
  | [] => None
  | (k', n) :: d' => if String.eqb k' k then Some n else lookup_count k d'
  end.

(** [sorted(items, key=lambda x: x[1], reverse=True)]: decreasing counts,
    and the sort is stable, so items with equal counts keep the order they
    have in [items]. An item is put in front of the first one whose count
    is not larger. *)
Fixpoint insert_desc (x : string * Z) (l : list (string * Z))
    : list (string * Z) :=
  match l with
  | [] => [x]
  | y :: l' => if snd y <=? snd x then x :: y :: l' else y :: insert_desc x l'
  end.

Definition sorted_desc (items : list (string * Z)) : list (string * Z) :=
  foldr insert_desc [] items.

(** [dict(sorted(d.items(), key=lambda x: x[1], reverse=True)[:5])]. *)
Definition top5 (d : list (string * Z)) : list (string * Z) :=
  take 5 (sorted_desc d).

End Counter.

(* ===================================================================== *)
(** * The pipeline *)
(* ===================================================================== *)

(** A transaction dict. [extract] builds it with the four keys sender,
    recipient, amount and timestamp, the amount a float and the others the
    texts of the cells; [transform] assigns the four derived keys, which
    are absent ([None]) until then. *)
Record transaction : Type := mk_tx {
  sender : string;
  recipient : string;
  amount : float;
  timestamp : string;
  amount_usd : option string;
  date : option string;
  time : option string;
  day_of_week : option string
}.

(** [transaction[key] = v] for each derived key. *)
Definition set_amount_usd (v : string) (t : transaction) : transaction :=
  mk_tx (sender t) (recipient t) (amount t) (timestamp t)
        (Some v) (date t) (time t) (day_of_week t).
Definition set_date (v : string) (t : transaction) : transaction :=
  mk_tx (sender t) (recipient t) (amount t) (timestamp t)
        (amount_usd t) (Some v) (time t) (day_of_week t).
Definition set_time (v : string) (t : transaction) : transaction :=
  mk_tx (sender t) (recipient t) (amount t) (timestamp t)
        (amount_usd t) (date t) (Some v) (day_of_week t).
Definition set_day_of_week (v : string) (t : transaction) : transaction :=
  mk_tx (sender t) (recipient t) (amount t) (timestamp t)
        (amount_usd t) (date t) (time t) (Some v).

(** The dict [extract] appends for a row. *)
Definition raw_record (s r : string) (a : float) (ts : string) : transaction :=
  mk_tx s r a ts None None None None.

Record summary : Type := mk_summary {
  total_transactions : Z;
  total_amount : Num.number;
  average_amount : Num.number;
  top_senders : list (string * Z);
  top_recipients : list (string * Z)
}.

(** What [transform] returns: the bare [[]] of its first line, or the pair
    [(transformed, summary)]. *)
Inductive transform_result : Type :=
  | EmptyList
  | Pair (transformed : list transaction) (s : summary).

(** The locals of [transform] while its loop runs. *)
Record locals : Type := mk_locals {
  transformed : list transaction;
  total : Num.number;
  sender_counts : list (string * Z);
  recipient_counts : list (string * Z)
}.

Definition UNKNOWN : string := "Unknown".

Section Transform.

(** The platform's way of writing '%Y'. *)
Variable style : Datetime.year_style.

(** The first half of the loop body: the derived fields. Only ValueError
    is caught around the timestamp. *)
Definition enrich (t : transaction) : result transaction :=
  let t := set_amount_usd
             (String.append "$" (Num.format_2f (amount t))) t in
  match Datetime.strptime (timestamp t) with
  | Ok dt =>
      let t := set_date (Datetime.strftime_date style dt) t in
      let t := set_time (Datetime.strftime_time dt) t in
      Ok (set_day_of_week (Datetime.strftime_A dt) t)
  | Raise ValueError =>
      let t := set_date UNKNOWN t in
      let t := set_time UNKNOWN t in
      Ok (set_day_of_week UNKNOWN t)
  | Raise e => Raise e
  end.

(** One iteration of [for transaction in transactions]. *)
Definition step (st : locals) (t : transaction) : result locals :=
  t' ← enrich t;
  Ok (mk_locals (transformed st ++ [t'])
                (Num.add (total st) (amount t'))
                (Counter.incr (sender t') (sender_counts st))
                (Counter.incr (recipient t') (recipient_counts st))).

Fixpoint loop (st : locals) (transactions : list transaction)
    : result locals :=
  match transactions with
  | [] => Ok st
  | t :: transactions' => st' ← step st t; loop st' transactions'
  end.

Definition initial : locals := mk_locals [] (Num.PyInt 0) [] [].

(** The dict literal after the loop, with its guard on an empty
    [transformed]. *)
Definition summarise (st : locals) : result summary :=
  let n := Z.of_nat (length (transformed st)) in
  average ← match transformed st with
            | _ :: _ => Num.truediv (total st) n
            | [] => Ok (Num.PyInt 0)
            end;
  Ok (mk_summary n (total st) average
                 (Counter.top5 (sender_counts st))
                 (Counter.top5 (recipient_counts st))).

Definition transform (transactions : list transaction)
    : result transform_result :=
  match transactions with
  | [] => Ok EmptyList
  | _ :: _ =>
      st ← loop initial transactions;
      s ← summarise st;
      Ok (Pair (transformed st) s)
  end.

End Transform.

(** ** Files, console and the stages around [transform] *)

(** The status lines the three stages print are a side channel and are
    left out; what main prints is kept in the log, between the marks of
    the stages it invokes. *)

Inductive stage : Type :=
  | ExtractStage
  | TransformStage
  | LoadStage.

Inductive event : Type :=
  | Invoked (s : stage)        (* main calls a stage *)
  | Printed (line : string).   (* a line main prints *)

(** A path holds a text, or cannot be opened. *)
Inductive node : Type :=
  | Text (content : string)
  | NoAccess.

Record world : Type := mk_world {
  files : gmap string node;
  log : list event
}.

Definition note (e : event) (w : world) : world :=
  mk_world (files w) (log w ++ [e]).

(** The structure [load] serialises. *)
Record output : Type := mk_output {
  out_summary : summary;
  out_transactions : list transaction
}.

Definition open_read (w : world) (path : string) : result string :=
  match files w !! path with
  | None => Raise FileNotFoundError
  | Some NoAccess => Raise OSError
  | Some (Text content) => Ok content
  end.

Definition write_text (w : world) (path content : string) : result world :=
  match files w !! path with
  | Some NoAccess => Raise OSError
  | _ => Ok (mk_world (<[path := Text content]> (files w)) (log w))
  end.

Definition getitem (row : gmap string string) (key : string) : result string :=
  match row !! key with
  | Some v => Ok v
  | None => Raise KeyError
  end.

Definition INPUT_FILE : string := "transactions.csv".
Definition DEFAULT_OUTPUT_FILE : string := "transformed_transactions.json".
Definition BANNER : string :=
  "==================================================".

Section Stages.

Variable style : Datetime.year_style.

(** Library functions the stages call: [csv.DictReader] over the text of
    a file (the rows, each a map from the column names of the header to the
    cells of the row, or the exception reading raises), [float] on the
    text of a cell, and [json.dump] with indent=2. *)
Variable csv_rows : string → result (list (gmap string string)).
Variable py_float : string → result float.
Variable json_dump : output → string.

Definition read_row (row : gmap string string) : result transaction :=
  s ← getitem row "sender";
  r ← getitem row "recipient";
  a ← getitem row "amount";
  a ← py_float a;
  ts ← getitem row "timestamp";
  Ok (raw_record s r a ts).

(** The body of the [try] in [extract]. *)
Definition read_transactions (w : world) (csv_file : string)
    : result (list transaction) :=
  content ← open_read w csv_file;
  rows ← csv_rows content;
  mapM read_row rows.

Definition extract (w : world) (csv_file : string) : list transaction :=
  match read_transactions w csv_file with
  | Ok transactions => transactions
  | Raise FileNotFoundError => []
  | Raise _ => []
  end.

Definition load (w : world) (transformed_data : list transaction)
    (s : summary) (output_file : string) : bool * world :=
  match write_text w output_file
          (json_dump (mk_output s transformed_data)) with
  | Ok w' => (true, w')
  | Raise _ => (false, w)
  end.

(** [transformed, summary = ...]: a pair is taken apart, the empty list
    has not enough values to unpack. *)
Definition unpack (r : transform_result)
    : result (list transaction * summary) :=
  match r with
  | Pair l s => Ok (l, s)
  | EmptyList => Raise ValueError
  end.

Definition main (w : world) : result world :=
  let w := note (Printed BANNER) w in
  let w := note (Printed "ETL Pipeline Started") w in
  let w := note (Printed BANNER) w in
  let w := note (Invoked ExtractStage) w in
  let transactions := extract w INPUT_FILE in
  match transactions with
  | [] => Ok (note (Printed "Pipeline failed at extraction stage") w)
  | _ :: _ =>
      let w := note (Invoked TransformStage) w in
      r ← transform style transactions;
      '(transformed_data, s) ← unpack r;
      let w := note (Invoked LoadStage) w in
      let '(success, w) := load w transformed_data s DEFAULT_OUTPUT_FILE in
      let w := note (Printed BANNER) w in
      let w := note (Printed (if success : bool
                              then "ETL Pipeline Completed Successfully"
                              else "ETL Pipeline Completed with Errors")) w in
      Ok (note (Printed BANNER) w)
  end.

End Stages.

(* ===================================================================== *)
(** * Vocabulary of the specification *)
(* ===================================================================== *)

(** [t'] is the record the loop body makes of [t]. *)
Definition enriches (style : Datetime.year_style) (t t' : transaction) : Prop :=
  enrich style t = Ok t'.

(** The amounts added up the way the loop does: from the int 0, one
    binary64 addition per record, in input order. *)
Definition float_sum (amounts : list float) : float :=
  fold_left PrimFloat.add amounts (Num.float_of_int 0).

(** The sum of the real numbers the amounts stand for. *)
Definition exact_sum (amounts : list float) : option Q :=
  foldr (λ a acc, v ← Num.exact a; w ← acc; Some (v + w)%Q) (Some 0%Q) amounts.

(** Does [total] stand for exactly the real sum of [amounts]? *)
Definition total_is_exact (amounts : list float) (total : Num.number) : bool :=
  match total, exact_sum amounts with
  | Num.PyFloat f, Some q =>
      match Num.exact f with
      | Some v => Qeq_bool v q
      | None => false
      end
  | _, _ => false
  end.

(** The counts the loop accumulates for a sequence of keys. *)
Definition tally (keys : list string) : list (string * Z) :=
  fold_left (λ d k, Counter.incr k d) keys [].

Definition occurrences (k : string) (keys : list string) : Z :=
  Z.of_nat (length (filter (λ x, x = k) keys)).


Definition by_count_desc (a b : string * Z) : Prop := b.2 ≤ a.2.


(** [h] is the match [re.match] returns. *)
Definition first_hit (r : Regex.regex) (s : string) (h : Regex.hit) : Prop :=
  Regex.re_match r s = Some h.

(** Two and four decimal digits in front of a text. *)
Definition two (v : Z) (tail : string) : string :=
  String (Chars.digit_char (v / 10 mod 10))
    (String (Chars.digit_char (v mod 10)) tail).

Definition four (v : Z) (tail : string) : string :=
  String (Chars.digit_char (v / 10 / 10 / 10 mod 10))
    (String (Chars.digit_char (v / 10 / 10 mod 10)) (two v tail)).

Definition field_hit (name : string) (v : Z) (tail : string) : Regex.hit :=
  Regex.Hit (two v EmptyString) [(name, two v EmptyString)] tail.

(** The text of a datetime in the canonical form of the pattern:
    zero-filled fields and one blank. *)
Definition canonical (dt : Datetime.datetime) : string :=
  four (Datetime.year dt) (String "-" (two (Datetime.month dt) (String "-"
  (two (Datetime.day dt) (String " " (two (Datetime.hour dt) (String ":"
  (two (Datetime.minute dt) (String ":" (two (Datetime.second dt) EmptyString)))))))))).

(** [date + " " + time]. *)
Definition recombine (date time : string) : string :=
  String.append date (String.append " " time).

Fixpoint all_digits (s : string) : bool :=
  match s with
  | EmptyString => true
  | String c s' => Chars.is_digit c && all_digits s'
  end.





(** The three rows of the specification's scenario. *)
Definition scenario : list transaction :=
  [raw_record "A" "B" 10%float "2023-01-02 10:00:00";
   raw_record "A" "C" 5%float "2023-01-02 11:00:00";
   raw_record "B" "A" 10%float "bad-timestamp"].

(** ** Vocabulary for the stages around transform *)

(** [t] is the dict [extract] builds from [row]: the four cells, the amount
    through float(), and no derived key. *)
Definition row_gives (py_float : string → result float)
    (row : gmap string string) (t : transaction) : Prop :=
  ∃ a : string,
    row !! "sender"%string = Some (sender t)
    ∧ row !! "recipient"%string = Some (recipient t)
    ∧ row !! "amount"%string = Some a ∧ py_float a = Ok (amount t)
    ∧ row !! "timestamp"%string = Some (timestamp t)
    ∧ amount_usd t = None ∧ date t = None ∧ time t = None
    ∧ day_of_week t = None.

(** What main adds to the log when extraction gave records. *)
Definition full_run_log (success : bool) : list event :=
  [Printed BANNER; Printed "ETL Pipeline Started"; Printed BANNER;
   Invoked ExtractStage; Invoked TransformStage; Invoked LoadStage;
   Printed BANNER;
   Printed (if success then "ETL Pipeline Completed Successfully"
            else "ETL Pipeline Completed with Errors");
   Printed BANNER].

(** Can [path] be opened for writing? *)
Definition writable (w : world) (path : string) : bool :=
  match files w !! path with
  | Some NoAccess => false
  | _ => true
  end.

(** The sum of the counts of a mapping. *)
Definition count_sum (d : list (string * Z)) : Z :=
  foldr (λ p acc, p.2 + acc) 0 d.



(** A file of one row, for trying the stages. *)
Definition sample_row : gmap string string :=
  <["sender"%string := "A"%string]>
    (<["recipient"%string := "B"%string]>
       (<["amount"%string := "10.0"%string]>
          (<["timestamp"%string := "2023-1-2 3:04:05"%string]> ∅))).

Definition sample_csv_rows (content : string)
    : result (list (gmap string string)) :=
  Ok [sample_row].

Definition sample_py_float (text : string) : result float := Ok 10%float.

Definition sample_json_dump (o : output) : string := "{}".

Definition sample_world : world :=
  mk_world (<[INPUT_FILE := Text "sender,recipient,amount,timestamp"]> ∅) [].

(* ===================================================================== *)
(** * Facts about the library functions and the loop *)
(* ===================================================================== *)


Lemma bind_Ok {A B} (m : result A) (f : A → result B) (b : B) :
  m ≫= f = Ok b ↔ ∃ a, m = Ok a ∧ f a = Ok b.
Proof.
  destruct m as [a|e]; simpl; split.
  - eauto.
  - intros (a' & [= <-] & H). exact H.
  - discriminate.
  - intros (a' & H & _). discriminate.
Qed.

Lemma bind_Raise {A B} (m : result A) (f : A → result B) (e : exn) :
  m ≫= f = Raise e ↔ m = Raise e ∨ ∃ a, m = Ok a ∧ f a = Raise e.
Proof.
  destruct m as [a|e']; simpl; split.
  - eauto.
  - intros [H|(a' & [= <-] & H)]; [discriminate|exact H].
  - intros [= ->]. by left.
  - intros [[= ->]|(a' & H & _)]; [reflexivity|discriminate].
Qed.

Lemma py_int_raises s e : Chars.py_int s = Raise e → e = ValueError.
Proof.
  unfold Chars.py_int. destruct (Chars.lstrip s); [congruence|].
  destruct (Chars.digits_val _ _); congruence.
Qed.

Lemma int_group_raises name d gs e :
  Datetime.int_group name d gs = Raise e → e = ValueError.
Proof.
  unfold Datetime.int_group. destruct (Regex.group name gs); [|discriminate].
  apply py_int_raises.
Qed.

Lemma make_raises y m d H M S e :
  Datetime.make y m d H M S = Raise e → e = ValueError.
Proof. unfold Datetime.make. destruct (_ && _); congruence. Qed.

Lemma strptime_raises s e : Datetime.strptime s = Raise e → e = ValueError.
Proof.
  unfold Datetime.strptime.
  destruct (Regex.re_match _ s) as [h|]; [|congruence].
  destruct (Regex.rest h); [|congruence].
  intros H.
  repeat (apply bind_Raise in H as [H|(? & _ & H)];
          [by eapply int_group_raises|]).
  by eapply make_raises.
Qed.

Section TransformFacts.
Variable style : Datetime.year_style.

(** The total function behind [enrich]. *)
Lemma enrich_Ok t :
  ∃ d tm w,
    enrich style t
    = Ok (mk_tx (sender t) (recipient t) (amount t) (timestamp t)
            (Some (String.append "$" (Num.format_2f (amount t))))
            (Some d) (Some tm) (Some w))
    ∧ match Datetime.strptime (timestamp t) with
      | Ok dt => d = Datetime.strftime_date style dt
                 ∧ tm = Datetime.strftime_time dt
                 ∧ w = Datetime.strftime_A dt
      | Raise _ => d = UNKNOWN ∧ tm = UNKNOWN ∧ w = UNKNOWN
      end.
Proof.
  unfold enrich. cbn [timestamp set_amount_usd].
  destruct (Datetime.strptime (timestamp t)) as [dt|e] eqn:E.
  - by eexists _, _, _.
  - apply strptime_raises in E as ->. by eexists _, _, _.
Qed.
End TransformFacts.


Section LoopFacts.
Variable style : Datetime.year_style.


Lemma enrich_frame t t' :
  enrich style t = Ok t' →
  sender t' = sender t ∧ recipient t' = recipient t
  ∧ amount t' = amount t ∧ timestamp t' = timestamp t.
Proof.
  destruct (enrich_Ok style t) as (d & tm & w & -> & _).
  by intros [= <-].
Qed.

Lemma loop_spec txs : ∀ st,
  ∃ l, Forall2 (enriches style) txs l
    ∧ loop style st txs
      = Ok (mk_locals (transformed st ++ l)
              (fold_left Num.add (amount <$> txs) (total st))
              (fold_left (λ d k, Counter.incr k d) (sender <$> txs)
                 (sender_counts st))
              (fold_left (λ d k, Counter.incr k d) (recipient <$> txs)
                 (recipient_counts st))).
Proof.
  induction txs as [|t txs IH]; intros st.
  - exists []. split; [constructor|]. cbn. rewrite app_nil_r. by destruct st.
  - destruct (enrich_Ok style t) as (d & tm & w & Ht & _).
    destruct (enrich_frame _ _ Ht) as (Hs & Hr & Ha & _).
    cbn [loop]. unfold step. rewrite Ht. cbn [mbind result_bind].
    edestruct IH as (l & Hl & ->).
    eexists (_ :: l). split; [by constructor|].
    cbn. by rewrite <- app_assoc.
Qed.

Lemma fold_add_float l : ∀ f,
  fold_left Num.add l (Num.PyFloat f)
  = Num.PyFloat (fold_left PrimFloat.add l f).
Proof. induction l as [|a l IH]; intros f; [done|]. cbn. apply IH. Qed.

Lemma fold_add_initial a l :
  fold_left Num.add (a :: l) (Num.PyInt 0) = Num.PyFloat (float_sum (a :: l)).
Proof.
  unfold float_sum. cbn [fold_left]. unfold Num.add at 2.
  cbn [Num.to_float]. apply fold_add_float.
Qed.

(** What [transform] returns on a non-empty list. *)
Lemma transform_spec t txs :
  ∃ l,
    Forall2 (enriches style) (t :: txs) l
    ∧ transform style (t :: txs)
      = Ok (Pair l
             (mk_summary (Z.of_nat (length l))
                (Num.PyFloat (float_sum (amount <$> t :: txs)))
                (Num.PyFloat (PrimFloat.div (float_sum (amount <$> t :: txs))
                                (Num.float_of_int (Z.of_nat (length l)))))
                (Counter.top5 (tally (sender <$> t :: txs)))
                (Counter.top5 (tally (recipient <$> t :: txs))))).
Proof.
  destruct (loop_spec (t :: txs) initial) as (l & Hl & E).
  exists l. split; [done|].
  unfold transform. rewrite E. cbn [mbind result_bind].
  unfold summarise. cbn [transformed total sender_counts recipient_counts initial app].
  inversion Hl as [|? t' ? l' ? ? Hl']; subst.
  rewrite fmap_cons, fold_add_initial.
  unfold Num.truediv.
  destruct (Z.eqb_spec (Z.of_nat (length (t' :: l'))) 0) as [Hz|_].
  { cbn [length] in Hz. lia. }
  reflexivity.
Qed.
End LoopFacts.


Section CounterFacts.
Import Counter.
Implicit Types (k : string) (d : list (string * Z)) (l : list string).

Lemma String_eqb_decide k k' : String.eqb k k' = bool_decide (k = k').
Proof.
  destruct (String.eqb_spec k k').
  - by rewrite bool_decide_eq_true_2.
  - by rewrite bool_decide_eq_false_2.
Qed.

Lemma incr_keys k d :
  (incr k d).*1 = if decide (k ∈ d.*1) then d.*1 else d.*1 ++ [k].
Proof.
  induction d as [|[k' n] d IH]; cbn.
  - rewrite decide_False; [done|]. apply not_elem_of_nil.
  - rewrite String_eqb_decide. case_bool_decide as E; cbn.
    + subst. rewrite decide_True; [done|]. left.
    + rewrite IH. destruct (decide (k ∈ d.*1)).
      * rewrite decide_True; [done|]. by right.
      * rewrite decide_False; [done|].
        rewrite elem_of_cons. intros [?|?]; [congruence|done].
Qed.

Lemma lookup_incr k' k d :
  lookup_count k' (incr k d)
  = if decide (k' = k) then Some (default 0 (lookup_count k d) + 1)
    else lookup_count k' d.
Proof.
  induction d as [|[k0 n] d IH]; cbn.
  - rewrite String_eqb_decide. case_bool_decide; subst.
    + by rewrite decide_True.
    + rewrite decide_False; [done|]. congruence.
  - rewrite (String_eqb_decide k0 k). case_bool_decide as E; cbn.
    + subst. rewrite String_eqb_decide.
      case_bool_decide; subst; [by rewrite decide_True|].
      rewrite decide_False; [done|]. congruence.
    + rewrite String_eqb_decide, IH.
      case_bool_decide as E'; subst; [|done].
      rewrite decide_False; [done|]. congruence.
Qed.

Lemma tally_snoc l k : tally (l ++ [k]) = incr k (tally l).
Proof. unfold tally. by rewrite fold_left_app. Qed.

Lemma tally_keys_elem l k : k ∈ (tally l).*1 ↔ k ∈ l.
Proof.
  induction l as [|x l IH] using rev_ind; [done|].
  rewrite tally_snoc, incr_keys.
  destruct (decide (x ∈ (tally l).*1)) as [Hx|Hx];
    rewrite !elem_of_app, ?list_elem_of_singleton; [|by rewrite IH].
  split; [intros H; left; by apply IH|].
  intros [H| ->]; [by apply IH|done].
Qed.

Lemma tally_keys_NoDup l : NoDup (tally l).*1.
Proof.
  induction l as [|x l IH] using rev_ind; [constructor|].
  rewrite tally_snoc, incr_keys.
  destruct (decide (x ∈ (tally l).*1)) as [Hx|Hx]; [done|].
  apply NoDup_app. split_and!; [done| |apply NoDup_singleton].
  intros y Hy ->%list_elem_of_singleton. done.
Qed.

Lemma occurrences_snoc k l x :
  occurrences k (l ++ [x])
  = occurrences k l + (if decide (x = k) then 1 else 0).
Proof.
  unfold occurrences. rewrite filter_app, length_app.
  rewrite filter_cons, filter_nil.
  destruct (decide (x = k)); cbn; lia.
Qed.

Lemma occurrences_pos k l : k ∈ l → 0 < occurrences k l.
Proof.
  intros H. unfold occurrences.
  assert (k ∈ filter (λ x, x = k) l) as Hf by by apply list_elem_of_filter.
  destruct (filter _ l); [by apply not_elem_of_nil in Hf|cbn; lia].
Qed.

Lemma occurrences_zero k l : k ∉ l → occurrences k l = 0.
Proof.
  intros H. unfold occurrences.
  destruct (filter _ l) as [|y f] eqn:E; [done|].
  assert (y ∈ filter (λ x, x = k) l) as Hy by (rewrite E; left).
  apply list_elem_of_filter in Hy as [-> ?]. done.
Qed.

Lemma lookup_tally k l :
  lookup_count k (tally l)
  = if decide (k ∈ l) then Some (occurrences k l) else None.
Proof.
  revert k. induction l as [|x l IH] using rev_ind; intros k.
  - rewrite decide_False; [reflexivity|]. apply not_elem_of_nil.
  - rewrite tally_snoc, lookup_incr, occurrences_snoc, !IH.
    assert (k ∈ l ++ [x] ↔ k ∈ l ∨ k = x) as Hsnoc.
    { rewrite elem_of_app, list_elem_of_singleton. tauto. }
    destruct (decide (k = x)) as [->|Hne].
    + destruct (decide (x ∈ l ++ [x])) as [_|Hn]; [|destruct Hn; tauto].
      destruct (decide (x = x)) as [_|?]; [|done].
      destruct (decide (x ∈ l)) as [Hin|Hin];
        unfold default, from_option, id; cbv beta iota; [done|].
      rewrite occurrences_zero by done. done.
    + destruct (decide (x = k)) as [->|_]; [done|].
      destruct (decide (k ∈ l)) as [Hin|Hin].
      * destruct (decide (k ∈ l ++ [x])) as [_|Hn]; [|destruct Hn; tauto].
        f_equal; lia.
      * destruct (decide (k ∈ l ++ [x])) as [Hn|_]; [|done].
        apply Hsnoc in Hn. tauto.
Qed.

Lemma lookup_count_elem d k c :
  NoDup d.*1 → (k, c) ∈ d ↔ lookup_count k d = Some c.
Proof.
  induction d as [|[k0 n] d IH]; cbn; intros Hnd.
  - split; [intros []%not_elem_of_nil|done].
  - apply NoDup_cons in Hnd as [Hk0 Hnd].
    rewrite String_eqb_decide, elem_of_cons.
    case_bool_decide as E; subst.
    + split; [|intros [= ->]; by left].
      intros [[= ->]|Hin]; [done|].
      destruct Hk0. apply list_elem_of_fmap. by exists (k, c).
    + rewrite <- IH by done.
      split; [intros [[= -> ->]|?]; done|by right].
Qed.

(** The items of the tally: every key once, with its number of
    occurrences. *)
Lemma tally_elem l k c :
  (k, c) ∈ tally l ↔ k ∈ l ∧ c = occurrences k l.
Proof.
  rewrite lookup_count_elem by apply tally_keys_NoDup.
  rewrite lookup_tally. destruct (decide (k ∈ l)) as [Hin|Hout].
  - split; [by intros [= <-]|by intros [_ ->]].
  - split; [done|by intros [? _]].
Qed.

Lemma tally_NoDup l : NoDup (tally l).
Proof. eapply NoDup_fmap_1, tally_keys_NoDup. Qed.
End CounterFacts.


Section Order.
Context {A : Type}.
Implicit Types (l : list A) (a b : A).



End Order.

Section FirstSeen.
Implicit Types (k x : string) (l : list string).




End FirstSeen.

Section Sorting.
Import Counter.
Implicit Types (x y : string * Z) (l : list (string * Z)).

Lemma insert_desc_Permutation x l : insert_desc x l ≡ₚ x :: l.
Proof.
  induction l as [|y l IH]; cbn; [done|].
  destruct (y.2 <=? x.2); [done|]. rewrite IH. apply Permutation_swap.
Qed.

Lemma sorted_desc_Permutation l : sorted_desc l ≡ₚ l.
Proof.
  induction l as [|x l IH]; cbn; [done|].
  by rewrite insert_desc_Permutation, IH.
Qed.

Lemma insert_desc_sorted x l :
  StronglySorted by_count_desc l →
  StronglySorted by_count_desc (insert_desc x l).
Proof.
  induction 1 as [|y l Hl IH Hy]; cbn; [repeat constructor|].
  destruct (Z.leb_spec y.2 x.2) as [Hle|Hgt].
  - constructor; [by constructor|]. constructor; [done|].
    eapply Forall_impl; [exact Hy|]. unfold by_count_desc. intros; lia.
  - constructor; [done|]. rewrite insert_desc_Permutation.
    constructor; [unfold by_count_desc; lia|done].
Qed.

Lemma sorted_desc_sorted l : StronglySorted by_count_desc (sorted_desc l).
Proof.
  induction l as [|x l IH]; cbn; [constructor|by apply insert_desc_sorted].
Qed.

(** Stability: the items of any one count are in the order of [l]. *)
Lemma insert_desc_filter (c : Z) x l :
  filter (λ p, p.2 = c) (insert_desc x l) = filter (λ p, p.2 = c) (x :: l).
Proof.
  induction l as [|y l IH]; cbn; [done|].
  destruct (Z.leb_spec y.2 x.2) as [Hle|Hgt]; [done|].
  rewrite (filter_cons _ y), IH, !filter_cons.
  destruct (decide (y.2 = c)), (decide (x.2 = c)); try done. lia.
Qed.

Lemma sorted_desc_stable (c : Z) l :
  filter (λ p, p.2 = c) (sorted_desc l) = filter (λ p, p.2 = c) l.
Proof.
  unfold sorted_desc. induction l as [|x l IH]; [done|]. cbn [foldr].
  by rewrite insert_desc_filter, !filter_cons, IH.
Qed.

End Sorting.


Section TopFive.
Import Counter.


Lemma tally_length keys : length (tally keys) = length (remove_dups keys).
Proof.
  rewrite <- (length_fmap fst). apply Permutation_length.
  apply NoDup_Permutation;
    [apply tally_keys_NoDup|apply NoDup_remove_dups|].
  intros k. by rewrite tally_keys_elem, elem_of_remove_dups.
Qed.

Lemma elem_of_top5 d x : x ∈ top5 d → x ∈ d.
Proof.
  intros H. rewrite <- (sorted_desc_Permutation d).
  eapply sublist_subseteq; [apply sublist_take|exact H].
Qed.

End TopFive.


Lemma Z_range_cases (P : Z → Prop) (lo : Z) (n : nat) :
  (∀ i : nat, (i < n)%nat → P (lo + Z.of_nat i)) →
  ∀ v, lo ≤ v < lo + Z.of_nat n → P v.
Proof.
  intros H v Hv. replace v with (lo + Z.of_nat (Z.to_nat (v - lo))) by lia.
  apply H. lia.
Qed.


Section RegexFacts.
Import Chars Regex.

Lemma digit_char_facts d :
  0 ≤ d < 10 →
  is_digit (digit_char d) = true ∧ is_space (digit_char d) = false
  ∧ digit_val (digit_char d) = d.
Proof.
  revert d. apply (Z_range_cases _ 0 10). intros i Hi.
  do 10 (destruct i as [|i]; [by vm_compute|]). lia.
Qed.

Lemma first_hit_seq r1 r2 s h1 h2 :
  first_hit r1 s h1 → first_hit r2 (rest h1) h2 →
  first_hit (Seq r1 r2) s
    (Hit (String.append (consumed h1) (consumed h2))
         (groups h1 ++ groups h2) (rest h2)).
Proof.
  unfold first_hit, re_match. cbn [matches].
  destruct (matches r1 s) as [|h hs]; [done|]. intros [= ->].
  cbn [mbind list_bind]. 
  destruct (matches r2 (rest h1)) as [|h' hs']; [done|]. by intros [= ->].
Qed.

Lemma first_hit_group name r s h :
  first_hit r s h →
  first_hit (Group name r) s
    (Hit (consumed h) ((name, consumed h) :: groups h) (rest h)).
Proof.
  unfold first_hit, re_match. cbn [matches].
  destruct (matches r s) as [|h' hs]; [done|]. by intros [= ->].
Qed.

Lemma first_hit_char (p : ascii → bool) c s :
  p c = true → head (one_char p (String c s)) = Some (Hit (String c EmptyString) [] s).
Proof. cbn. by intros ->. Qed.

Lemma first_hit_digit d s :
  0 ≤ d < 10 →
  first_hit Digit (String (digit_char d) s)
    (Hit (String (digit_char d) EmptyString) [] s).
Proof. intros Hd. apply first_hit_char. by apply digit_char_facts. Qed.

Lemma first_hit_lit c s :
  first_hit (Lit c) (String c s) (Hit (String c EmptyString) [] s).
Proof. apply first_hit_char. apply Ascii.eqb_refl. Qed.

Lemma first_hit_space d s :
  0 ≤ d < 10 →
  first_hit Spaces (String " " (String (digit_char d) s))
    (Hit " " [] (String (digit_char d) s)).
Proof.
  intros Hd. unfold first_hit, re_match. cbn [matches spaces].
  change (is_space " ") with true. cbv iota.
  replace (is_space (digit_char d)) with false
    by (symmetry; by apply digit_char_facts).
  reflexivity.
Qed.
End RegexFacts.


Section Canonical.
Import Chars Regex Datetime.


Lemma hit_m v tail : 1 ≤ v ≤ 12 → first_hit re_m (two v tail) (field_hit "m" v tail).
Proof.
  intros Hv. pattern v. apply (Z_range_cases _ 1 12); [|lia]. intros i Hi.
  do 12 (destruct i as [|i]; [reflexivity|]). lia.
Qed.

Lemma hit_d v tail : 1 ≤ v ≤ 31 → first_hit re_d (two v tail) (field_hit "d" v tail).
Proof.
  intros Hv. pattern v. apply (Z_range_cases _ 1 31); [|lia]. intros i Hi.
  do 31 (destruct i as [|i]; [reflexivity|]). lia.
Qed.

Lemma hit_H v tail : 0 ≤ v ≤ 23 → first_hit re_H (two v tail) (field_hit "H" v tail).
Proof.
  intros Hv. pattern v. apply (Z_range_cases _ 0 24); [|lia]. intros i Hi.
  do 24 (destruct i as [|i]; [reflexivity|]). lia.
Qed.

Lemma hit_M v tail : 0 ≤ v ≤ 59 → first_hit re_M (two v tail) (field_hit "M" v tail).
Proof.
  intros Hv. pattern v. apply (Z_range_cases _ 0 60); [|lia]. intros i Hi.
  do 60 (destruct i as [|i]; [reflexivity|]). lia.
Qed.

Lemma hit_S v tail : 0 ≤ v ≤ 59 → first_hit re_S (two v tail) (field_hit "S" v tail).
Proof.
  intros Hv. pattern v. apply (Z_range_cases _ 0 60); [|lia]. intros i Hi.
  do 60 (destruct i as [|i]; [reflexivity|]). lia.
Qed.

Lemma hit_Y v tail :
  first_hit re_Y (four v tail) (Hit (four v EmptyString) [("Y", four v EmptyString)] tail).
Proof.
  assert (∀ z, 0 ≤ z mod 10 < 10) as Hd by (intros; by apply Z.mod_pos_bound).
  pose proof (first_hit_group "Y" _ _ _
    (first_hit_seq _ _ _ _ _ (first_hit_digit (v / 10 / 10 / 10 mod 10) _ (Hd _))
    (first_hit_seq _ _ _ _ _ (first_hit_digit (v / 10 / 10 mod 10) _ (Hd _))
    (first_hit_seq _ _ _ _ _ (first_hit_digit (v / 10 mod 10) _ (Hd _))
       (first_hit_digit (v mod 10) tail (Hd v)))))) as H.
  exact H.
Qed.
End Canonical.


Section Roundtrip.
Import Chars Regex Datetime.

Lemma digits_val_digit acc d s :
  0 ≤ d < 10 →
  digits_val acc (String (digit_char d) s) = digits_val (10 * acc + d) s.
Proof.
  intros Hd. destruct (digit_char_facts d Hd) as (H1 & _ & H3).
  cbn [digits_val]. by rewrite H1, H3.
Qed.

Lemma lstrip_digit d s :
  0 ≤ d < 10 → lstrip (String (digit_char d) s) = String (digit_char d) s.
Proof.
  intros Hd. destruct (digit_char_facts d Hd) as (_ & H2 & _).
  cbn [lstrip]. by rewrite H2.
Qed.

Lemma py_int_two v : 0 ≤ v < 100 → py_int (two v EmptyString) = Ok v.
Proof.
  intros Hv. unfold py_int, two.
  assert (∀ z, 0 ≤ z mod 10 < 10) as Hd by (intros; by apply Z.mod_pos_bound).
  rewrite lstrip_digit, !digits_val_digit by done. cbn [digits_val].
  f_equal. 
  pose proof (Z.div_mod v 10 ltac:(lia)).
  rewrite (Z.mod_small (v / 10) 10) by (split; [apply Z.div_pos|apply Z.div_lt_upper_bound]; lia).
  lia.
Qed.

Lemma py_int_four v : 0 ≤ v < 10000 → py_int (four v EmptyString) = Ok v.
Proof.
  intros Hv. unfold py_int, four, two.
  assert (∀ z, 0 ≤ z mod 10 < 10) as Hd by (intros; by apply Z.mod_pos_bound).
  rewrite lstrip_digit, !digits_val_digit by done. cbn [digits_val].
  f_equal.
  pose proof (Z.div_mod v 10 ltac:(lia)).
  pose proof (Z.div_mod (v / 10) 10 ltac:(lia)).
  pose proof (Z.div_mod (v / 10 / 10) 10 ltac:(lia)).
  assert (0 ≤ v / 10 / 10 / 10 < 10) as Hq.
  { rewrite !Z.div_div by lia. split; [apply Z.div_pos|apply Z.div_lt_upper_bound]; lia. }
  rewrite (Z.mod_small (v / 10 / 10 / 10) 10) by done.
  lia.
Qed.

Lemma decimal_four v : 1000 ≤ v ≤ 9999 → decimal v = four v EmptyString.
Proof.
  intros Hv. unfold decimal.
  assert (9 ≤ Z.log2 v) as Hlog.
  { change 9 with (Z.log2 1000). apply Z.log2_le_mono. lia. }
  destruct (Z.to_nat (Z.log2 v)) as [|[|[|fuel]]] eqn:E; try lia.
  cbn [dec_loop].
  assert (v / 10 / 10 / 10 < 10).
  { rewrite !Z.div_div by lia. apply Z.div_lt_upper_bound; lia. }
  assert (10 ≤ v / 10 / 10).
  { rewrite !Z.div_div by lia. apply Z.div_le_lower_bound; lia. }
  assert (10 ≤ v / 10) by (apply Z.div_le_lower_bound; lia).
  rewrite (proj2 (Z.ltb_ge v 10)) by lia.
  rewrite (proj2 (Z.ltb_ge (v / 10) 10)) by lia.
  rewrite (proj2 (Z.ltb_ge (v / 10 / 10) 10)) by lia.
  destruct fuel; cbn [dec_loop]; [done|].
  by rewrite (proj2 (Z.ltb_lt (v / 10 / 10 / 10) 10)).
Qed.

Lemma valid_ranges dt :
  valid dt = true →
  1 ≤ year dt ≤ 9999 ∧ 1 ≤ month dt ≤ 12 ∧ 1 ≤ day dt ≤ 31
  ∧ 0 ≤ hour dt ≤ 23 ∧ 0 ≤ minute dt ≤ 59 ∧ 0 ≤ second dt ≤ 59.
Proof.
  unfold valid, valid_date, valid_time, MINYEAR, MAXYEAR.
  rewrite !andb_true_iff, !Z.leb_le. intros [[[[[[? ?] ?] ?] ?] Hd] ?].
  assert (days_in_month (year dt) (month dt) ≤ 31); [|lia].
  unfold days_in_month. destruct (_ && _); [lia|].
  pattern (month dt). apply (Z_range_cases _ 1 12); [|lia].
  intros i Hi. do 12 (destruct i as [|i]; [by vm_compute|]). lia.
Qed.

Lemma canonical_first_hit dt :
  valid dt = true →
  ∃ c, first_hit format_regex (canonical dt)
         (Hit c [("Y", four (year dt) EmptyString); ("m", two (month dt) EmptyString);
                 ("d", two (day dt) EmptyString); ("H", two (hour dt) EmptyString);
                 ("M", two (minute dt) EmptyString); ("S", two (second dt) EmptyString)]
               EmptyString).
Proof.
  intros (Hy & Hm & Hd & HH & HM & HS)%valid_ranges.
  assert (∀ z, 0 ≤ z mod 10 < 10) as Hdig by (intros; by apply Z.mod_pos_bound).
  eexists.
  pose proof
    (first_hit_seq _ _ _ _ _ (hit_Y (year dt) _)
    (first_hit_seq _ _ _ _ _ (first_hit_lit "-" _)
    (first_hit_seq _ _ _ _ _ (hit_m (month dt) _ Hm)
    (first_hit_seq _ _ _ _ _ (first_hit_lit "-" _)
    (first_hit_seq _ _ _ _ _ (hit_d (day dt) _ Hd)
    (first_hit_seq _ _ _ _ _ (first_hit_space (hour dt / 10 mod 10) _ (Hdig _))
    (first_hit_seq _ _ _ _ _ (hit_H (hour dt) _ HH)
    (first_hit_seq _ _ _ _ _ (first_hit_lit ":" _)
    (first_hit_seq _ _ _ _ _ (hit_M (minute dt) _ HM)
    (first_hit_seq _ _ _ _ _ (first_hit_lit ":" _)
                             (hit_S (second dt) EmptyString HS))))))))))) as H.
  exact H.
Qed.

(** A valid datetime is read back from its canonical text. *)
Lemma strptime_canonical dt : valid dt = true → strptime (canonical dt) = Ok dt.
Proof.
  intros Hv. destruct (canonical_first_hit dt Hv) as [c Hc].
  pose proof (valid_ranges dt Hv) as (Hy & Hm & Hd & HH & HM & HS).
  unfold strptime. rewrite Hc. cbn [rest groups].
  unfold int_group. cbn [group String.eqb Ascii.eqb Bool.eqb].
  rewrite py_int_four, !py_int_two by lia.
  cbn [mbind result_bind]. unfold make.
  destruct dt as [y m d H M S]. cbn [year month day hour minute second] in *.
  unfold valid in Hv. cbn [year month day hour minute second] in Hv.
  by rewrite Hv.
Qed.
End Roundtrip.


Section StringFacts.
Lemma append_cons c s1 s2 :
  String.append (String c s1) s2 = String c (String.append s1 s2).
Proof. reflexivity. Qed.

Lemma append_nil_l s : String.append EmptyString s = s.
Proof. reflexivity. Qed.

Lemma append_nil_r s : String.append s EmptyString = s.
Proof. induction s as [|c s IH]; [done|]. by rewrite append_cons, IH. Qed.

Lemma append_assoc s1 s2 s3 :
  String.append (String.append s1 s2) s3
  = String.append s1 (String.append s2 s3).
Proof. induction s1 as [|c s1 IH]; [done|]. by rewrite !append_cons, IH. Qed.

Lemma length_append s1 s2 :
  String.length (String.append s1 s2)
  = (String.length s1 + String.length s2)%nat.
Proof.
  induction s1 as [|c s1 IH]; [done|]. rewrite append_cons. cbn. by rewrite IH.
Qed.
End StringFacts.

Section FormatFacts.
Import Chars Num.

Lemma dec_loop_spec fuel : ∀ n acc,
  0 ≤ n < 2 ^ (Z.of_nat fuel + 1) →
  ∃ ds, dec_loop fuel n acc = String.append ds acc
      ∧ ds ≠ EmptyString ∧ all_digits ds = true
      ∧ ∀ a s, digits_val a (String.append ds s)
               = digits_val (a * 10 ^ Z.of_nat (String.length ds) + n) s.
Proof.
  assert (∀ n, 0 ≤ n < 10 →
    ∃ ds, String (digit_char (n mod 10)) EmptyString = ds ∧ ds ≠ EmptyString
      ∧ all_digits ds = true
      ∧ ∀ a s, digits_val a (String.append ds s)
               = digits_val (a * 10 ^ Z.of_nat (String.length ds) + n) s)
    as Hone.
  { intros n Hn. eexists; split; [reflexivity|]. rewrite Z.mod_small by done.
    destruct (digit_char_facts n Hn) as (H1 & _ & H3).
    split; [done|]. split; [cbn; by rewrite H1|].
    intros a s. rewrite append_cons, append_nil_l, digits_val_digit by done.
    f_equal. cbn [String.length]. lia. }
  induction fuel as [|fuel IH]; intros n acc Hn.
  - destruct (Hone n) as (ds & <- & ?); [change (2 ^ _) with 2 in Hn; lia|].
    by exists (String (digit_char (n mod 10)) EmptyString).
  - cbn [dec_loop]. destruct (Z.ltb_spec n 10) as [Hlt|Hge].
    + destruct (Hone n) as (ds & <- & ?); [lia|].
      by exists (String (digit_char (n mod 10)) EmptyString).
    + assert (0 ≤ n / 10 < 2 ^ (Z.of_nat fuel + 1)) as Hq.
      { split; [apply Z.div_pos; lia|].
        apply Z.div_lt_upper_bound; [lia|].
        replace (Z.of_nat (S fuel) + 1) with (Z.succ (Z.of_nat fuel + 1)) in Hn
          by lia.
        rewrite Z.pow_succ_r in Hn by lia. lia. }
      destruct (IH (n / 10) (String (digit_char (n mod 10)) acc) Hq)
        as (ds & -> & Hne & Hall & Hval).
      assert (0 ≤ n mod 10 < 10) as Hd by (apply Z.mod_pos_bound; lia).
      destruct (digit_char_facts _ Hd) as (H1 & _ & H3).
      exists (String.append ds (String (digit_char (n mod 10)) EmptyString)).
      split; [|split; [|split]].
      * by rewrite append_assoc.
      * by destruct ds.
      * clear -Hall H1. induction ds as [|c ds IHds].
        -- rewrite append_nil_l. cbn. by rewrite H1.
        -- rewrite append_cons. cbn in *.
           apply andb_true_iff in Hall as [-> Hall]. by apply IHds.
      * intros a s.
        rewrite append_assoc, append_cons, append_nil_l, Hval,
          digits_val_digit by done.
        f_equal. rewrite length_append. cbn [String.length].
        rewrite Nat2Z.inj_add, Z.pow_add_r by lia.
        pose proof (Z.div_mod n 10 ltac:(lia)). lia.
Qed.

(** The numeral of [n]: digits only, at least one, and they read [n]. *)
Lemma decimal_spec n :
  0 ≤ n →
  decimal n ≠ EmptyString ∧ all_digits (decimal n) = true
  ∧ digits_val 0 (decimal n) = Some n.
Proof.
  intros Hn. unfold decimal.
  destruct (dec_loop_spec (Z.to_nat (Z.log2 n)) n EmptyString)
    as (ds & -> & Hne & Hall & Hval).
  { split; [done|]. rewrite Z2Nat.id by apply Z.log2_nonneg.
    destruct (Z.eq_dec n 0) as [->|]; [done|].
    replace (Z.log2 n + 1) with (Z.succ (Z.log2 n)) by lia.
    apply Z.log2_spec. lia. }
  rewrite append_nil_r. split; [done|]. split; [done|].
  specialize (Hval 0 EmptyString). rewrite append_nil_r in Hval. by rewrite Hval.
Qed.



End FormatFacts.


Section Cents.
Import Chars Num.






End Cents.

Section StableSortUnique.
Implicit Types (x y : string * Z) (l : list (string * Z)).

(** A stable sort is determined by its specification: two lists in
    decreasing order of count that agree on the items of every count, in
    order, are equal. So [sorted_desc] is what any stable sort, Python's
    included, returns. *)
Lemma stable_sort_unique l1 l2 :
  StronglySorted by_count_desc l1 → StronglySorted by_count_desc l2 →
  (∀ c : Z, filter (λ p, p.2 = c) l1 = filter (λ p, p.2 = c) l2) →
  l1 = l2.
Proof.
  intros H1. revert l2.
  induction H1 as [|x l1 _ IH Hx]; intros l2 H2 Hf.
  - destruct l2 as [|y l2]; [done|].
    specialize (Hf y.2). rewrite filter_nil, filter_cons, decide_True in Hf
      by done. done.
  - destruct H2 as [|y l2 H2 Hy].
    { specialize (Hf x.2). rewrite filter_nil, filter_cons, decide_True in Hf
        by done. done. }
    assert (x.2 = y.2) as Exy.
    { assert (x ∈ y :: l2) as Hxin.
      { eapply (list_elem_of_filter (λ p, p.2 = x.2)). rewrite <- Hf.
        rewrite filter_cons, decide_True by done. left. }
      assert (y ∈ x :: l1) as Hyin.
      { eapply (list_elem_of_filter (λ p, p.2 = y.2)). rewrite Hf.
        rewrite filter_cons, decide_True by done. left. }
      rewrite Forall_forall in Hx, Hy. unfold by_count_desc in Hx, Hy.
      apply elem_of_cons in Hxin as [->|Hxin]; [done|].
      apply elem_of_cons in Hyin as [->|Hyin]; [done|].
      specialize (Hx _ Hyin). specialize (Hy _ Hxin). lia. }
    pose proof (Hf x.2) as Hhead.
    rewrite !filter_cons, decide_True in Hhead by done.
    rewrite decide_True in Hhead by done.
    injection Hhead as -> Htail.
    f_equal. apply IH; [done|]. intros c.
    specialize (Hf c). rewrite !filter_cons in Hf.
    destruct (decide (y.2 = c)); [by injection Hf|done].
Qed.

Lemma sorted_desc_is_the_stable_sort l l' :
  StronglySorted by_count_desc l' →
  (∀ c : Z, filter (λ p, p.2 = c) l' = filter (λ p, p.2 = c) l) →
  l' = Counter.sorted_desc l.
Proof.
  intros Hs Hf. apply stable_sort_unique; [done|apply sorted_desc_sorted|].
  intros c. by rewrite sorted_desc_stable.
Qed.
End StableSortUnique.

(* ===================================================================== *)
(** * The transform stage *)
(* ===================================================================== *)

Section TransformClaims.
Variable style : Datetime.year_style.

Lemma strptime_valid s dt :
  Datetime.strptime s = Ok dt → Datetime.valid dt = true.
Proof.
  unfold Datetime.strptime.
  destruct (Regex.re_match _ s) as [h|]; [|done].
  destruct (Regex.rest h); [|done]. intros H.
  repeat (apply bind_Ok in H as (? & _ & H)).
  unfold Datetime.make in H.
  destruct (_ && _) eqn:E; [|done]. by injection H as <-.
Qed.

(** A non-empty input always yields the pair, whose first component
    enriches the input position by position. *)
Lemma transform_nonempty txs :
  txs ≠ [] →
  ∃ l,
    Forall2 (enriches style) txs l
    ∧ transform style txs
      = Ok (Pair l
             (mk_summary (Z.of_nat (length l))
                (Num.PyFloat (float_sum (amount <$> txs)))
                (Num.PyFloat (PrimFloat.div (float_sum (amount <$> txs))
                                (Num.float_of_int (Z.of_nat (length l)))))
                (Counter.top5 (tally (sender <$> txs)))
                (Counter.top5 (tally (recipient <$> txs))))).
Proof. destruct txs as [|t txs]; [done|]. intros _. apply transform_spec. Qed.

Lemma transform_records txs l s :
  transform style txs = Ok (Pair l s) → Forall2 (enriches style) txs l.
Proof.
  destruct txs as [|t txs]; [done|].
  destruct (transform_nonempty (t :: txs)) as (l' & Hl & ->); [done|].
  by intros [= <- _].
Qed.

(** C1: for every non-empty sequence of raw records, transform returns an
    enriched-record sequence of the same length, in the order of the
    input: its i-th record is the enrichment of the i-th input record and
    carries that record's sender, recipient, amount and timestamp. *)
Theorem transform_preserves_length_and_order txs :
  txs ≠ [] →
  ∃ l s,
    transform style txs = Ok (Pair l s)
    ∧ length l = length txs
    ∧ Forall2 (λ t t', enriches style t t'
                       ∧ sender t' = sender t ∧ recipient t' = recipient t
                       ∧ amount t' = amount t ∧ timestamp t' = timestamp t)
        txs l.
Proof.
  intros Hne. destruct (transform_nonempty txs Hne) as (l & Hl & E).
  eexists l, _. split; [exact E|].
  split; [symmetry; by eapply Forall2_length|].
  eapply Forall2_impl; [exact Hl|].
  intros t t' Ht. split; [done|]. by apply (enrich_frame style).
Qed.


(** C3, as amended: for every record whose timestamp parses, with a year
    of at least 1000 or on a platform that zero-fills '%Y', the text
    date + " " + time parses under the same pattern to the same datetime
    as the original timestamp. *)
Theorem date_time_recombination txs l s (i : nat) t t' dt :
  transform style txs = Ok (Pair l s) →
  txs !! i = Some t → l !! i = Some t' →
  Datetime.strptime (timestamp t) = Ok dt →
  style = Datetime.ZeroFilled ∨ 1000 ≤ Datetime.year dt →
  ∃ d tm,
    date t' = Some d ∧ time t' = Some tm
    ∧ Datetime.strptime (recombine d tm) = Ok dt.
Proof.
  intros Htr Hi Hi' Hdt Hstyle.
  pose proof (transform_records _ _ _ Htr) as Hall.
  pose proof (Forall2_lookup_lr _ _ _ _ _ _ Hall Hi Hi') as Ht.
  unfold enriches in Ht.
  destruct (enrich_Ok style t) as (d & tm & w & E & Hd).
  rewrite Hdt in Hd. destruct Hd as (-> & -> & ->).
  rewrite E in Ht. injection Ht as <-. cbn [date time].
  eexists _, _. split; [done|]. split; [done|].
  pose proof (strptime_valid _ _ Hdt) as Hvalid.
  pose proof (valid_ranges _ Hvalid) as (Hy & _).
  assert (Datetime.strftime_Y style (Datetime.year dt)
          = four (Datetime.year dt) EmptyString) as EY.
  { destruct Hstyle as [->|Hy']; [done|].
    destruct style; [done|]. apply decimal_four. lia. }
  assert (recombine (Datetime.strftime_date style dt)
            (Datetime.strftime_time dt) = canonical dt) as ->.
  { unfold recombine, Datetime.strftime_date. by rewrite EY. }
  by apply strptime_canonical.
Qed.

(** C4: a record whose timestamp does not parse gets "Unknown" for date,
    time and day_of_week, stands at its place in the output with its
    original fields, and is counted in the total and in the sender and
    recipient counts. *)
Theorem unparsable_timestamp_is_unknown_and_counted pre t post e :
  Datetime.strptime (timestamp t) = Raise e →
  ∃ st s t',
    loop style initial (pre ++ t :: post) = Ok st
    ∧ transform style (pre ++ t :: post) = Ok (Pair (transformed st) s)
    ∧ length (transformed st) = length (pre ++ t :: post)
    ∧ transformed st !! length pre = Some t'
    ∧ date t' = Some UNKNOWN ∧ time t' = Some UNKNOWN
    ∧ day_of_week t' = Some UNKNOWN
    ∧ sender t' = sender t ∧ recipient t' = recipient t
    ∧ amount t' = amount t ∧ timestamp t' = timestamp t
    ∧ total_amount s = total st
    ∧ total st
      = Num.PyFloat
          (fold_left PrimFloat.add (amount <$> post)
             (PrimFloat.add (float_sum (amount <$> pre)) (amount t)))
    ∧ top_senders s = Counter.top5 (sender_counts st)
    ∧ top_recipients s = Counter.top5 (recipient_counts st)
    ∧ Counter.lookup_count (sender t) (sender_counts st)
      = Some (occurrences (sender t) (sender <$> pre ++ post) + 1)
    ∧ Counter.lookup_count (recipient t) (recipient_counts st)
      = Some (occurrences (recipient t) (recipient <$> pre ++ post) + 1).
Proof.
  intros Hbad.
  destruct (loop_spec style (pre ++ t :: post) initial) as (l & Hl & Eloop).
  destruct (transform_nonempty (pre ++ t :: post)) as (l' & Hl' & Etr);
    [by destruct pre|].
  assert (l' = l) as ->.
  { clear -Hl Hl'. revert l' Hl'.
    induction Hl as [|x y xs ys Hxy _ IH]; intros l' Hl'; inversion Hl'; subst;
      [done|].
    unfold enriches in *. f_equal; [congruence|by apply IH]. }
  cbn [initial transformed total sender_counts recipient_counts app] in Eloop.
  destruct (enrich_Ok style t) as (d & tm & w & E & Hd).
  rewrite Hbad in Hd. destruct Hd as (-> & -> & ->).
  assert (l !! length pre = Some
    (mk_tx (sender t) (recipient t) (amount t) (timestamp t)
       (Some (String.append "$" (Num.format_2f (amount t))))
       (Some UNKNOWN) (Some UNKNOWN) (Some UNKNOWN))) as Hlookup.
  { pose proof (list_lookup_middle pre post t (length pre) eq_refl) as Hmid.
    destruct (Forall2_lookup_l _ _ _ _ _ Hl Hmid) as (t' & Ht' & Hen).
    unfold enriches in Hen. by rewrite E in Hen; injection Hen as <-. }
  assert (∀ k keys1 keys2,
    Counter.lookup_count k (tally (keys1 ++ k :: keys2))
    = Some (occurrences k (keys1 ++ keys2) + 1)) as Hcount.
  { intros k keys1 keys2. rewrite lookup_tally.
    rewrite decide_True by (apply elem_of_app; right; left).
    f_equal. unfold occurrences.
    rewrite !filter_app, filter_cons, decide_True, !length_app by done.
    cbn [length]. lia. }
  assert (fold_left Num.add (amount <$> pre ++ t :: post) (Num.PyInt 0)
          = Num.PyFloat (float_sum (amount <$> pre ++ t :: post))) as Etotal.
  { destruct pre; apply fold_add_initial. }
  rewrite Etotal in Eloop.
  eexists _, _, _. split; [exact Eloop|].
  cbn [transformed total sender_counts recipient_counts].
  split; [exact Etr|].
  split; [symmetry; by eapply Forall2_length|].
  split; [exact Hlookup|].
  cbn [date time day_of_week sender recipient amount timestamp total_amount
       top_senders top_recipients].
  repeat (split; [done|]).
  split.
  { unfold float_sum. by rewrite fmap_app, fmap_cons, fold_left_app. }
  split; [done|]. split; [done|].
  rewrite !fmap_app, !fmap_cons. split; apply Hcount.
Qed.

(** C5, as amended: for every non-empty input, total_amount is the sum of
    the amounts accumulated in input order in binary64 arithmetic, each
    addition rounded, and average_amount is the binary64 quotient of
    total_amount by the record count. *)
Theorem total_and_average txs :
  txs ≠ [] →
  ∃ l s,
    transform style txs = Ok (Pair l s)
    ∧ total_transactions s = Z.of_nat (length txs)
    ∧ total_amount s = Num.PyFloat (float_sum (amount <$> txs))
    ∧ average_amount s
      = Num.PyFloat (PrimFloat.div (float_sum (amount <$> txs))
                       (Num.float_of_int (Z.of_nat (length txs)))).
Proof.
  intros Hne. destruct (transform_nonempty txs Hne) as (l & Hl & E).
  eexists l, _. split; [exact E|]. cbn.
  by rewrite (Forall2_length _ _ _ Hl).
Qed.

(** C6: on the empty sequence transform returns the bare empty list and no
    summary; the aggregation it skips would have given the zero-filled
    summary. *)
Theorem transform_empty :
  transform style [] = Ok EmptyList
  ∧ (∀ l s, transform style [] ≠ Ok (Pair l s))
  ∧ (loop style initial [] ≫= summarise)
    = Ok (mk_summary 0 (Num.PyInt 0) (Num.PyInt 0) [] []).
Proof. done. Qed.

(** C8: transform leaves sender, recipient, amount and timestamp of every
    record as they were, and gives it the four derived fields. *)
Theorem original_fields_unchanged txs l s (i : nat) t t' :
  transform style txs = Ok (Pair l s) →
  txs !! i = Some t → l !! i = Some t' →
  sender t' = sender t ∧ recipient t' = recipient t
  ∧ amount t' = amount t ∧ timestamp t' = timestamp t
  ∧ is_Some (amount_usd t') ∧ is_Some (date t')
  ∧ is_Some (time t') ∧ is_Some (day_of_week t').
Proof.
  intros Htr Hi Hi'.
  pose proof (transform_records _ _ _ Htr) as Hall.
  pose proof (Forall2_lookup_lr _ _ _ _ _ _ Hall Hi Hi') as Ht.
  unfold enriches in Ht.
  destruct (enrich_Ok style t) as (d & tm & w & E & _).
  rewrite E in Ht. injection Ht as <-. cbn. by repeat split.
Qed.


(** C10: whenever transform builds a summary the record count is positive:
    the division by it does not raise ZeroDivisionError and the average is
    the quotient, a float, never the 0 of the guard; on the empty input no
    summary is built. *)
Theorem summary_division_is_safe txs :
  match txs with
  | [] => transform style txs = Ok EmptyList
  | _ :: _ =>
      ∃ st s f,
        loop style initial txs = Ok st
        ∧ transformed st ≠ []
        ∧ 0 < Z.of_nat (length (transformed st))
        ∧ Num.truediv (total st) (Z.of_nat (length (transformed st)))
          = Ok (Num.PyFloat f)
        ∧ summarise st = Ok s
        ∧ average_amount s = Num.PyFloat f
        ∧ total_transactions s = Z.of_nat (length (transformed st))
        ∧ transform style txs = Ok (Pair (transformed st) s)
  end.
Proof.
  destruct txs as [|t txs]; [done|].
  destruct (loop_spec style (t :: txs) initial) as (l & Hl & Eloop).
  cbn [initial transformed total sender_counts recipient_counts app] in Eloop.
  inversion Hl as [|? t' ? l' _ _ Hl']; subst.
  assert (Z.of_nat (length (t' :: l')) ≠ 0) as Hn by (cbn [length]; lia).
  eexists _, _, _. split; [exact Eloop|]. cbn [transformed total].
  split; [done|]. split; [lia|].
  unfold transform, summarise, Num.truediv. rewrite Eloop.
  cbn [mbind result_bind transformed total sender_counts recipient_counts].
  apply Z.eqb_neq in Hn. rewrite Hn. cbn [mbind result_bind].
  done.
Qed.
End TransformClaims.

(* ===================================================================== *)
(** * The pipeline around transform *)
(* ===================================================================== *)

Section PipelineClaims.
Variable style : Datetime.year_style.
Variable csv_rows : string → result (list (gmap string string)).
Variable py_float : string → result float.
Variable json_dump : output → string.

Lemma missing_file_raises w csv_file :
  files w !! csv_file = None →
  read_transactions csv_rows py_float w csv_file = Raise FileNotFoundError.
Proof. intros H. unfold read_transactions, open_read. by rewrite H. Qed.

(** The three ways extraction comes back empty. *)
Lemma extract_empty_iff w csv_file :
  extract csv_rows py_float w csv_file = []
  ↔ (∃ e, read_transactions csv_rows py_float w csv_file = Raise e)
    ∨ read_transactions csv_rows py_float w csv_file = Ok [].
Proof.
  unfold extract.
  destruct (read_transactions csv_rows py_float w csv_file) as [l|e].
  - split; [intros ->; by right|]. by intros [[e [=]]|[= ->]].
  - split; [intros _; left; by exists e|]. by destruct e.
Qed.

Lemma no_rows_no_records w csv_file content :
  files w !! csv_file = Some (Text content) → csv_rows content = Ok [] →
  extract csv_rows py_float w csv_file = [].
Proof.
  intros Hf Hrows. apply extract_empty_iff. right.
  unfold read_transactions, open_read. rewrite Hf. cbn. by rewrite Hrows.
Qed.

(** One row that cannot be converted (a column missing from the header,
    an amount float() rejects) empties the whole extraction. *)
Lemma bad_row_empties_extraction w csv_file content rows row e :
  files w !! csv_file = Some (Text content) → csv_rows content = Ok rows →
  row ∈ rows → read_row py_float row = Raise e →
  extract csv_rows py_float w csv_file = [].
Proof.
  intros Hf Hrows Hin Hbad. apply extract_empty_iff. left.
  unfold read_transactions, open_read. rewrite Hf. cbn. rewrite Hrows. cbn.
  clear Hf Hrows. induction rows as [|r rows IH]; [by apply not_elem_of_nil in Hin|].
  cbn. destruct (read_row py_float r) as [t|e'] eqn:Er; [|by exists e'].
  apply elem_of_cons in Hin as [->|Hin]; [congruence|].
  destruct (IH Hin) as [e'' ->]. by exists e''.
Qed.

(** C7: whenever extraction yields the empty sequence, main stops after
    the extraction stage: it reports the failure, invokes neither
    transform nor load, and leaves every file as it was. *)
Theorem pipeline_halts_after_empty_extraction w :
  extract csv_rows py_float w INPUT_FILE = [] →
  main style csv_rows py_float json_dump w
  = Ok (mk_world (files w)
          (log w ++ [Printed BANNER; Printed "ETL Pipeline Started";
                     Printed BANNER; Invoked ExtractStage;
                     Printed "Pipeline failed at extraction stage"])).
Proof.
  intros Hempty. unfold main.
  change (extract csv_rows py_float _ INPUT_FILE)
    with (extract csv_rows py_float w INPUT_FILE).
  rewrite Hempty. unfold note. cbn [files log].
  by rewrite <- !app_assoc.
Qed.

End PipelineClaims.

(* ===================================================================== *)
(** * Concrete runs *)
(* ===================================================================== *)

Example format_2f_example :
  String.append "$" (Num.format_2f 1234.5%float) = "$1234.50".
Proof. by vm_compute. Qed.

Example format_2f_ties_to_even :
  Num.format_2f 0.125%float = "0.12" ∧ Num.format_2f 0.375%float = "0.38".
Proof. by vm_compute. Qed.

(** The scenario of the specification: total 25, average 8.33..., senders
    A twice and B once, the third row "Unknown". *)
Example scenario_run :
  ∃ t1 t2 t3,
    transform Datetime.ZeroFilled scenario
    = Ok (Pair [t1; t2; t3]
            (mk_summary 3 (Num.PyFloat 25%float)
               (Num.PyFloat (PrimFloat.div 25 3))
               [("A", 2); ("B", 1)]
               [("B", 1); ("C", 1); ("A", 1)]))
    ∧ day_of_week t1 = Some "Monday"
    ∧ date t3 = Some "Unknown" ∧ time t3 = Some "Unknown"
    ∧ day_of_week t3 = Some "Unknown".
Proof. eexists _, _, _. by vm_compute. Qed.

(** Both kinds of failure: a text of another form, and a text of the form
    whose values are not a date and a time. *)
Example strptime_failures :
  Datetime.strptime "not-a-date" = Raise ValueError
  ∧ Datetime.strptime "2023-02-30 10:00:00" = Raise ValueError
  ∧ Datetime.strptime "2023-01-02 24:00:00" = Raise ValueError
  ∧ Datetime.strptime "2023-01-02 10:00:60" = Raise ValueError
  ∧ Datetime.strptime "2023-01-02 10:00:00 " = Raise ValueError.
Proof. by vm_compute. Qed.

(** strptime accepts fields without their leading zero and any run of
    white space, so the recombined text need not be the original one. *)
Example recombined_text_differs :
  ∃ dt,
    Datetime.strptime "2023-1-2 3:4:5" = Ok dt
    ∧ recombine (Datetime.strftime_date Datetime.ZeroFilled dt)
        (Datetime.strftime_time dt) = "2023-01-02 03:04:05".
Proof. eexists. by vm_compute. Qed.

(** Where '%Y' is not zero-filled, a timestamp of the year 999 parses, but
    its date comes out as "999-01-02": the recombined text is not the
    original one and does not parse. *)
Lemma recombination_fails_before_year_1000 :
  ∃ s,
    transform Datetime.Unfilled
      [raw_record "A" "B" 10%float "0999-01-02 10:00:00"]
    = Ok (Pair [mk_tx "A" "B" 10%float "0999-01-02 10:00:00"
                  (Some "$10.00") (Some "999-01-02") (Some "10:00:00")
                  (Some "Wednesday")] s)
    ∧ Datetime.strptime "0999-01-02 10:00:00"
      = Ok (Datetime.mk_dt 999 1 2 10 0 0)
    ∧ recombine "999-01-02" "10:00:00" ≠ "0999-01-02 10:00:00"
    ∧ Datetime.strptime (recombine "999-01-02" "10:00:00") = Raise ValueError.
Proof. eexists. by vm_compute. Qed.

(** The amounts 0.1 and 0.2 (the nearest binary64 numbers) add up to
    0.30000000000000004, which is not the sum of the two numbers. *)
Lemma total_is_not_the_exact_sum :
  ∃ l s,
    transform Datetime.ZeroFilled
      [raw_record "A" "B" 0x1.999999999999ap-4%float "2023-01-02 10:00:00";
       raw_record "A" "C" 0x1.999999999999ap-3%float "2023-01-02 11:00:00"]
    = Ok (Pair l s)
    ∧ total_amount s = Num.PyFloat 0x1.3333333333334p-2%float
    ∧ total_is_exact [0x1.999999999999ap-4%float; 0x1.999999999999ap-3%float]
        (total_amount s) = false.
Proof.
  eexists _, _. split; [vm_compute; reflexivity|].
  split; [reflexivity|]. vm_compute. reflexivity.
Qed.


(** ** The theorems at work on the scenario *)

Lemma transform_preserves_length_and_order_witness :
  scenario ≠ []
  ∧ ∃ l s,
      transform Datetime.ZeroFilled scenario = Ok (Pair l s)
      ∧ length l = length scenario
      ∧ Forall2 (λ t t', enriches Datetime.ZeroFilled t t'
                         ∧ sender t' = sender t ∧ recipient t' = recipient t
                         ∧ amount t' = amount t ∧ timestamp t' = timestamp t)
          scenario l.
Proof.
  split; [discriminate|].
  apply (transform_preserves_length_and_order Datetime.ZeroFilled scenario).
  discriminate.
Defined.


Lemma date_time_recombination_witness :
  ∃ l s t t' dt,
    transform Datetime.Unfilled scenario = Ok (Pair l s)
    ∧ scenario !! 0%nat = Some t ∧ l !! 0%nat = Some t'
    ∧ Datetime.strptime (timestamp t) = Ok dt
    ∧ (Datetime.Unfilled = Datetime.ZeroFilled ∨ 1000 ≤ Datetime.year dt)
    ∧ ∃ d tm,
        date t' = Some d ∧ time t' = Some tm
        ∧ Datetime.strptime (recombine d tm) = Ok dt.
Proof.
  eexists _, _, _, _, _.
  split; [vm_compute; reflexivity|].
  split; [reflexivity|]. split; [reflexivity|].
  split; [vm_compute; reflexivity|].
  split; [right; simpl; lia|].
  eapply (date_time_recombination Datetime.Unfilled scenario _ _ 0).
  - vm_compute; reflexivity.
  - reflexivity.
  - reflexivity.
  - vm_compute; reflexivity.
  - right; simpl; lia.
Defined.

Lemma unparsable_timestamp_is_unknown_and_counted_witness :
  Datetime.strptime "bad-timestamp" = Raise ValueError
  ∧ ∃ l s t',
      transform Datetime.ZeroFilled scenario = Ok (Pair l s)
      ∧ l !! 2%nat = Some t'
      ∧ date t' = Some UNKNOWN ∧ time t' = Some UNKNOWN
      ∧ day_of_week t' = Some UNKNOWN.
Proof.
  split; [vm_compute; reflexivity|].
  destruct (unparsable_timestamp_is_unknown_and_counted Datetime.ZeroFilled
              [raw_record "A" "B" 10%float "2023-01-02 10:00:00";
               raw_record "A" "C" 5%float "2023-01-02 11:00:00"]
              (raw_record "B" "A" 10%float "bad-timestamp") [] ValueError)
    as (st & s & t' & _ & Htr & _ & Ht' & Hd & Htm & Hw & _).
  - vm_compute; reflexivity.
  - exists (transformed st), s, t'. repeat split; assumption.
Defined.

Lemma total_and_average_witness :
  scenario ≠ []
  ∧ ∃ l s,
      transform Datetime.ZeroFilled scenario = Ok (Pair l s)
      ∧ total_transactions s = 3
      ∧ total_amount s = Num.PyFloat 25%float
      ∧ average_amount s = Num.PyFloat (PrimFloat.div 25 3).
Proof.
  split; [discriminate|].
  destruct (total_and_average Datetime.ZeroFilled scenario)
    as (l & s & Htr & Hn & Ht & Ha); [discriminate|].
  exists l, s. repeat split; assumption.
Defined.

Lemma pipeline_halts_after_empty_extraction_witness :
  let csv_rows := λ _ : string, Ok [] in
  let py_float := λ _ : string, Raise ValueError in
  let json_dump := λ _ : output, EmptyString in
  let w := mk_world ∅ [] in
  extract csv_rows py_float w INPUT_FILE = []
  ∧ main Datetime.ZeroFilled csv_rows py_float json_dump w
    = Ok (mk_world ∅
            [Printed BANNER; Printed "ETL Pipeline Started"; Printed BANNER;
             Invoked ExtractStage; Printed "Pipeline failed at extraction stage"]).
Proof.
  split; [reflexivity|].
  apply (pipeline_halts_after_empty_extraction Datetime.ZeroFilled
           (λ _, Ok []) (λ _, Raise ValueError) (λ _, EmptyString)
           (mk_world ∅ [])).
  reflexivity.
Defined.

Lemma original_fields_unchanged_witness :
  ∃ l s t t',
    transform Datetime.ZeroFilled scenario = Ok (Pair l s)
    ∧ scenario !! 2%nat = Some t ∧ l !! 2%nat = Some t'
    ∧ sender t' = sender t ∧ recipient t' = recipient t
    ∧ amount t' = amount t ∧ timestamp t' = timestamp t
    ∧ is_Some (amount_usd t') ∧ is_Some (date t')
    ∧ is_Some (time t') ∧ is_Some (day_of_week t').
Proof.
  eexists _, _, _, _.
  split; [vm_compute; reflexivity|].
  split; [reflexivity|]. split; [reflexivity|].
  eapply (original_fields_unchanged Datetime.ZeroFilled scenario _ _ 2).
  - vm_compute; reflexivity.
  - reflexivity.
  - reflexivity.
Defined.


(* ===================================================================== *)
(** * Further properties: extraction, loading and the whole run *)
(* ===================================================================== *)

Section StageProperties.
Variable style : Datetime.year_style.
Variable csv_rows : string → result (list (gmap string string)).
Variable py_float : string → result float.
Variable json_dump : output → string.

Lemma read_row_gives row t :
  read_row py_float row = Ok t ↔ row_gives py_float row t.
Proof.
  unfold read_row, row_gives, getitem. split.
  - destruct (row !! "sender"%string) as [s|]; [|done].
    destruct (row !! "recipient"%string) as [r|]; [|done].
    destruct (row !! "amount"%string) as [a|]; [|done]. cbn.
    destruct (py_float a) as [x|] eqn:Ex; [|done].
    destruct (row !! "timestamp"%string) as [ts|]; [|done]. cbn.
    intros [= <-]. by exists a.
  - intros (a & -> & -> & -> & Ha & -> & H1 & H2 & H3 & H4). cbn.
    rewrite Ha. cbn. destruct t; cbn in *. by subst.
Qed.

Lemma mapM_result_Forall2 {A B} (f : A → result B) (xs : list A) (ys : list B) :
  mapM f xs = Ok ys ↔ Forall2 (λ x y, f x = Ok y) xs ys.
Proof.
  revert ys. induction xs as [|x xs IH]; intros ys; cbn.
  - split; [intros [= <-]; constructor|by inversion 1].
  - split.
    + intros H. apply bind_Ok in H as (y & Hy & H).
      apply bind_Ok in H as (ys' & Hys & [= <-]).
      constructor; [done|by apply IH].
    + inversion 1 as [|? y ? ys' Hy Hys]; subst.
      rewrite Hy. cbn. apply IH in Hys. by rewrite Hys.
Qed.

Lemma read_transactions_Ok w csv_file l :
  read_transactions csv_rows py_float w csv_file = Ok l
  ↔ ∃ content rows,
      files w !! csv_file = Some (Text content)
      ∧ csv_rows content = Ok rows
      ∧ Forall2 (row_gives py_float) rows l.
Proof.
  unfold read_transactions, open_read.
  assert (∀ rows, mapM (read_row py_float) rows = Ok l
                  ↔ Forall2 (row_gives py_float) rows l) as Hmap.
  { intros rows. rewrite mapM_result_Forall2.
    split; intros H; (eapply Forall2_impl; [exact H|]); intros row t;
      by apply read_row_gives. }
  split.
  - destruct (files w !! csv_file) as [[content|]|]; [|done|done]. cbn.
    destruct (csv_rows content) as [rows|] eqn:Er; [|done]. cbn.
    intros H. exists content, rows. by rewrite <- Hmap.
  - intros (content & rows & -> & Hr & Hl). cbn. rewrite Hr. cbn.
    by apply Hmap.
Qed.


(** X2: when the file can be read and every row has the four columns and an
    amount float() accepts, [extract] returns one record per row, in row
    order, each with the cells of its row and no derived field. *)
Theorem extract_converts_every_row w csv_file content rows :
  files w !! csv_file = Some (Text content) →
  csv_rows content = Ok rows →
  Forall (λ row, ∃ t, row_gives py_float row t) rows →
  length (extract csv_rows py_float w csv_file) = length rows
  ∧ Forall2 (row_gives py_float) rows (extract csv_rows py_float w csv_file).
Proof.
  intros Hf Hr Hall.
  assert (∃ l, Forall2 (row_gives py_float) rows l) as [l Hl].
  { clear Hr. induction Hall as [|row rows [t Ht] _ [l IH]].
    - by exists [].
    - exists (t :: l). by constructor. }
  assert (read_transactions csv_rows py_float w csv_file = Ok l) as E.
  { apply read_transactions_Ok. by exists content, rows. }
  unfold extract. rewrite E.
  split; [symmetry; by eapply Forall2_length|done].
Qed.


(** What main returns, case by case. *)
Lemma main_unfold w :
  main style csv_rows py_float json_dump w
  = match extract csv_rows py_float w INPUT_FILE with
    | [] =>
        Ok (mk_world (files w)
              (log w ++ [Printed BANNER; Printed "ETL Pipeline Started";
                         Printed BANNER; Invoked ExtractStage;
                         Printed "Pipeline failed at extraction stage"]))
    | t :: txs =>
        match transform style (t :: txs) with
        | Ok (Pair l s) =>
            if writable w DEFAULT_OUTPUT_FILE
            then Ok (mk_world
                       (<[DEFAULT_OUTPUT_FILE :=
                            Text (json_dump (mk_output s l))]> (files w))
                       (log w ++ full_run_log true))
            else Ok (mk_world (files w) (log w ++ full_run_log false))
        | Ok EmptyList => Raise ValueError
        | Raise e => Raise e
        end
    end.
Proof.
  unfold main.
  change (extract csv_rows py_float _ INPUT_FILE)
    with (extract csv_rows py_float w INPUT_FILE).
  destruct (extract csv_rows py_float w INPUT_FILE) as [|t txs].
  - unfold note. cbn [files log]. by rewrite <- !app_assoc.
  - destruct (transform style (t :: txs)) as [[|l s]|e]; [done| |done].
    cbn [mbind result_bind unpack].
    unfold load, write_text, writable, note, full_run_log. cbn [files log].
    destruct (files w !! DEFAULT_OUTPUT_FILE) as [[old|]|];
      cbn [files log]; by rewrite <- !app_assoc.
Qed.



Lemma main_frame w w' :
  main style csv_rows py_float json_dump w = Ok w' →
  (∀ p, p ≠ DEFAULT_OUTPUT_FILE → files w' !! p = files w !! p)
  ∧ ∃ events, log w' = log w ++ events.
Proof.
  rewrite main_unfold. intros H.
  destruct (extract csv_rows py_float w INPUT_FILE) as [|t txs].
  - injection H as <-. split; [done|by eexists].
  - destruct (transform style (t :: txs)) as [[|l s]|]; [done| |done].
    destruct (writable w DEFAULT_OUTPUT_FILE); injection H as <-; cbn.
    + split; [|by eexists]. intros p Hp. by rewrite lookup_insert_ne.
    + split; [done|by eexists].
Qed.


Lemma extract_same_file w1 w2 csv_file :
  files w1 !! csv_file = files w2 !! csv_file →
  extract csv_rows py_float w1 csv_file = extract csv_rows py_float w2 csv_file.
Proof.
  intros H. unfold extract, read_transactions, open_read. by rewrite H.
Qed.

(** X7: running the pipeline again on what it left behind changes no file:
    the second run reads the same input and writes the same output. *)
Theorem main_rerun_changes_no_file w w1 w2 :
  main style csv_rows py_float json_dump w = Ok w1 →
  main style csv_rows py_float json_dump w1 = Ok w2 →
  files w2 = files w1.
Proof.
  intros H1 H2.
  assert (files w1 !! INPUT_FILE = files w !! INPUT_FILE) as Hin.
  { by apply (main_frame w w1 H1). }
  rewrite main_unfold in H1, H2.
  rewrite (extract_same_file w1 w INPUT_FILE Hin) in H2.
  destruct (extract csv_rows py_float w INPUT_FILE) as [|t txs].
  - injection H1 as <-. by injection H2 as <-.
  - destruct (transform style (t :: txs)) as [[|l s]|]; [done| |done].
    unfold writable in H1, H2.
    destruct (files w !! DEFAULT_OUTPUT_FILE) as [[old|]|] eqn:E;
      injection H1 as <-; cbn [files] in H2;
      rewrite ?lookup_insert_eq, ?E in H2; injection H2 as <-; cbn [files];
      by rewrite ?insert_insert_eq.
Qed.
End StageProperties.

(* ===================================================================== *)
(** * Further properties of transform *)
(* ===================================================================== *)

Section TransformProperties.
Variable style : Datetime.year_style.

Lemma enrich_again t t' : enrich style t = Ok t' → enrich style t' = Ok t'.
Proof.
  destruct (enrich_Ok style t) as (d & tm & w & -> & Hd). intros [= <-].
  destruct (enrich_Ok style
              (mk_tx (sender t) (recipient t) (amount t) (timestamp t)
                 (Some (String.append "$" (Num.format_2f (amount t))))
                 (Some d) (Some tm) (Some w))) as (d' & tm' & w' & -> & Hd').
  cbn [sender recipient amount timestamp] in *.
  destruct (Datetime.strptime (timestamp t));
    destruct Hd as (-> & -> & ->), Hd' as (-> & -> & ->); done.
Qed.

Lemma enriched_fields txs l :
  Forall2 (enriches style) txs l →
  amount <$> l = amount <$> txs ∧ sender <$> l = sender <$> txs
  ∧ recipient <$> l = recipient <$> txs.
Proof.
  induction 1 as [|t t' txs l Ht _ (IH1 & IH2 & IH3)]; [done|].
  destruct (enrich_frame style _ _ Ht) as (Hs & Hr & Ha & _).
  rewrite !fmap_cons. by rewrite IH1, IH2, IH3, Hs, Hr, Ha.
Qed.

(** X8: transform applied to its own output returns it unchanged, records
    and summary: the derived fields are recomputed from amount and
    timestamp, which enrichment leaves alone. *)
Theorem transform_again txs l s :
  transform style txs = Ok (Pair l s) → transform style l = Ok (Pair l s).
Proof.
  intros Htr. destruct txs as [|t txs]; [done|].
  destruct (transform_nonempty style (t :: txs)) as (l0 & Hl0 & E); [done|].
  rewrite E in Htr. injection Htr as <- <-.
  assert (l0 ≠ []) as Hne by (inversion Hl0; done).
  destruct (transform_nonempty style l0 Hne) as (l1 & Hl1 & ->).
  assert (l1 = l0) as ->.
  { clear -Hl0 Hl1. revert l1 Hl1.
    induction Hl0 as [|x y xs ys Hxy _ IH]; intros l1 Hl1;
      inversion Hl1 as [|? z ? zs Hyz Hrest]; subst; [done|].
    f_equal; [|by apply IH].
    apply enrich_again in Hxy. unfold enriches in Hyz. congruence. }
  by destruct (enriched_fields _ _ Hl0) as (-> & -> & ->).
Qed.

(** X9: the summary depends on senders, recipients and amounts only: two
    inputs that agree on these, whatever their timestamps, get the same
    summary. *)
Theorem summary_ignores_timestamps txs1 txs2 l1 s1 l2 s2 :
  Forall2 (λ a b, sender a = sender b ∧ recipient a = recipient b
                  ∧ amount a = amount b) txs1 txs2 →
  transform style txs1 = Ok (Pair l1 s1) →
  transform style txs2 = Ok (Pair l2 s2) →
  s1 = s2.
Proof.
  intros Hsame H1 H2.
  assert (amount <$> txs1 = amount <$> txs2
          ∧ sender <$> txs1 = sender <$> txs2
          ∧ recipient <$> txs1 = recipient <$> txs2) as (Ha & Hs & Hr).
  { clear -Hsame.
    induction Hsame as [|a b xs ys (Hs & Hr & Ha) _ (IH1 & IH2 & IH3)];
      [done|].
    rewrite !fmap_cons. by rewrite IH1, IH2, IH3, Hs, Hr, Ha. }
  destruct txs1 as [|t1 txs1]; [done|]. destruct txs2 as [|t2 txs2]; [done|].
  destruct (transform_nonempty style (t1 :: txs1)) as (k1 & Hk1 & E1); [done|].
  destruct (transform_nonempty style (t2 :: txs2)) as (k2 & Hk2 & E2); [done|].
  assert (length k1 = length k2) as Hlen.
  { rewrite <- (Forall2_length _ _ _ Hk1), <- (Forall2_length _ _ _ Hk2).
    by rewrite (Forall2_length _ _ _ Hsame). }
  rewrite Ha, Hs, Hr, Hlen in E1. congruence.
Qed.

Lemma digit_start_not_unknown c s :
  Chars.is_digit c = true → String c s ≠ UNKNOWN.
Proof. intros Hc [= -> _]. by vm_compute in Hc. Qed.

Lemma strftime_date_not_unknown dt :
  Datetime.valid dt = true → Datetime.strftime_date style dt ≠ UNKNOWN.
Proof.
  intros (Hy & _)%valid_ranges. unfold Datetime.strftime_date.
  destruct style; cbn [Datetime.strftime_Y].
  - change (Chars.fixed_dec 4 (Datetime.year dt))
      with (four (Datetime.year dt) EmptyString).
    unfold four. rewrite append_cons. apply digit_start_not_unknown.
    apply digit_char_facts. by apply Z.mod_pos_bound.
  - destruct (decimal_spec (Datetime.year dt)) as (Hne & Hall & _); [lia|].
    destruct (Chars.decimal (Datetime.year dt)) as [|c ds]; [done|].
    rewrite append_cons. apply digit_start_not_unknown.
    cbn in Hall. by apply andb_true_iff in Hall as [-> _].
Qed.

Lemma strftime_time_not_unknown dt : Datetime.strftime_time dt ≠ UNKNOWN.
Proof.
  unfold Datetime.strftime_time.
  change (Chars.fixed_dec 2 (Datetime.hour dt))
    with (two (Datetime.hour dt) EmptyString).
  unfold two. rewrite append_cons. apply digit_start_not_unknown.
  apply digit_char_facts. by apply Z.mod_pos_bound.
Qed.

Lemma strftime_A_name dt :
  Datetime.strftime_A dt ∈ Datetime.DAY_NAMES
  ∧ Datetime.strftime_A dt ≠ UNKNOWN.
Proof.
  unfold Datetime.strftime_A, Datetime.weekday.
  pose proof (Z.mod_pos_bound
    (Datetime.ymd2ord (Datetime.year dt) (Datetime.month dt)
       (Datetime.day dt) + 6) 7 ltac:(lia)) as Hw.
  revert Hw. generalize ((Datetime.ymd2ord (Datetime.year dt)
    (Datetime.month dt) (Datetime.day dt) + 6) mod 7).
  intros n Hn. pattern n. apply (Z_range_cases _ 0 7); [|lia].
  intros i Hi. rewrite Z.add_0_l, Nat2Z.id. unfold Datetime.DAY_NAMES.
  do 7 (destruct i as [|i];
        [cbn [nth]; split; [rewrite !elem_of_cons; tauto|done]|]).
  lia.
Qed.

(** X10: "Unknown" marks the records whose timestamp does not parse, and
    only those: each of date, time and day_of_week is "Unknown" exactly
    when strptime raises. *)
Theorem unknown_iff_unparsable txs l s (i : nat) t t' :
  transform style txs = Ok (Pair l s) →
  txs !! i = Some t → l !! i = Some t' →
  (date t' = Some UNKNOWN ↔ ∃ e, Datetime.strptime (timestamp t) = Raise e)
  ∧ (time t' = Some UNKNOWN ↔ ∃ e, Datetime.strptime (timestamp t) = Raise e)
  ∧ (day_of_week t' = Some UNKNOWN
     ↔ ∃ e, Datetime.strptime (timestamp t) = Raise e).
Proof.
  intros Htr Hi Hi'.
  pose proof (transform_records _ _ _ _ Htr) as Hall.
  pose proof (Forall2_lookup_lr _ _ _ _ _ _ Hall Hi Hi') as Ht.
  unfold enriches in Ht.
  destruct (enrich_Ok style t) as (d & tm & w & E & Hd).
  rewrite E in Ht. injection Ht as <-. cbn [date time day_of_week].
  destruct (Datetime.strptime (timestamp t)) as [dt|e] eqn:Edt.
  - destruct Hd as (-> & -> & ->).
    pose proof (strptime_valid _ _ Edt) as Hvalid.
    pose proof (strftime_date_not_unknown dt Hvalid).
    pose proof (strftime_time_not_unknown dt).
    destruct (strftime_A_name dt) as [_ ?].
    repeat split; try (intros [= ?]; done); intros [? [=]].
  - destruct Hd as (-> & -> & ->). repeat split; eauto.
Qed.

(** X11: for a timestamp that parses, day_of_week is one of the seven
    English day names, time has the eight characters of HH:MM:SS and, with
    a four-digit year, date has the ten characters of YYYY-MM-DD: fields
    written without their leading zeros come out zero-filled. *)
Theorem derived_fields_shape txs l s (i : nat) t t' dt :
  transform style txs = Ok (Pair l s) →
  txs !! i = Some t → l !! i = Some t' →
  Datetime.strptime (timestamp t) = Ok dt →
  ∃ d tm w,
    date t' = Some d ∧ time t' = Some tm ∧ day_of_week t' = Some w
    ∧ w ∈ Datetime.DAY_NAMES
    ∧ tm = two (Datetime.hour dt) (String ":" (two (Datetime.minute dt)
             (String ":" (two (Datetime.second dt) EmptyString))))
    ∧ String.length tm = 8%nat
    ∧ (style = Datetime.ZeroFilled ∨ 1000 ≤ Datetime.year dt →
       d = four (Datetime.year dt) (String "-" (two (Datetime.month dt)
             (String "-" (two (Datetime.day dt) EmptyString))))
       ∧ String.length d = 10%nat).
Proof.
  intros Htr Hi Hi' Edt.
  pose proof (transform_records _ _ _ _ Htr) as Hall.
  pose proof (Forall2_lookup_lr _ _ _ _ _ _ Hall Hi Hi') as Ht.
  unfold enriches in Ht.
  destruct (enrich_Ok style t) as (d & tm & w & E & Hd).
  rewrite E in Ht. injection Ht as <-. cbn [date time day_of_week].
  rewrite Edt in Hd. destruct Hd as (-> & -> & ->).
  eexists _, _, _. do 3 (split; [done|]).
  split; [apply strftime_A_name|]. split; [done|]. split; [done|].
  intros Hstyle.
  pose proof (valid_ranges _ (strptime_valid _ _ Edt)) as (Hy & _).
  assert (Datetime.strftime_Y style (Datetime.year dt)
          = four (Datetime.year dt) EmptyString) as EY.
  { destruct Hstyle as [->|Hy']; [done|].
    destruct style; [done|]. apply decimal_four. lia. }
  unfold Datetime.strftime_date. rewrite EY. done.
Qed.
End TransformProperties.

Section CountProperties.
Variable style : Datetime.year_style.

Lemma count_sum_incr k d :
  count_sum (Counter.incr k d) = count_sum d + 1.
Proof.
  induction d as [|[k' n] d IH]; cbn; [done|].
  destruct (String.eqb k' k); cbn; [lia|]. fold (count_sum (Counter.incr k d)).
  rewrite IH. fold (count_sum d). lia.
Qed.

Lemma count_sum_tally keys : count_sum (tally keys) = Z.of_nat (length keys).
Proof.
  induction keys as [|k keys IH] using rev_ind; [done|].
  rewrite tally_snoc, count_sum_incr, IH, length_app. cbn. lia.
Qed.

Lemma count_sum_Permutation d1 d2 : d1 ≡ₚ d2 → count_sum d1 = count_sum d2.
Proof.
  induction 1 as [|x d1 d2 _ IH|x y d|d1 d2 d3 _ IH1 _ IH2]; cbn;
    [done| | |congruence].
  - fold (count_sum d1) (count_sum d2). by rewrite IH.
  - fold (count_sum d). lia.
Qed.

Lemma count_sum_app d1 d2 : count_sum (d1 ++ d2) = count_sum d1 + count_sum d2.
Proof.
  induction d1 as [|x d1 IH]; cbn; [done|].
  fold (count_sum (d1 ++ d2)) (count_sum d1). rewrite IH. lia.
Qed.

Lemma count_sum_nonneg d : Forall (λ p, 0 ≤ p.2) d → 0 ≤ count_sum d.
Proof.
  induction 1 as [|x d Hx _ IH]; cbn; [done|]. fold (count_sum d). lia.
Qed.

Lemma top5_count_sum keys :
  count_sum (Counter.top5 (tally keys)) ≤ Z.of_nat (length keys)
  ∧ ((length (remove_dups keys) ≤ 5)%nat →
     count_sum (Counter.top5 (tally keys)) = Z.of_nat (length keys)).
Proof.
  pose proof (sorted_desc_Permutation (tally keys)) as Hperm.
  pose proof (count_sum_Permutation _ _ Hperm) as Hsum.
  rewrite count_sum_tally in Hsum. unfold Counter.top5. split.
  - rewrite <- Hsum.
    rewrite <- (take_drop 5 (Counter.sorted_desc (tally keys))) at 2.
    rewrite count_sum_app.
    assert (0 ≤ count_sum (drop 5 (Counter.sorted_desc (tally keys)))); [|lia].
    apply count_sum_nonneg, Forall_forall. intros [k c] Hin.
    assert ((k, c) ∈ tally keys) as Hk.
    { rewrite <- Hperm. eapply sublist_subseteq; [apply sublist_drop|done]. }
    apply tally_elem in Hk as [Hk ->]. apply occurrences_pos in Hk. cbn. lia.
  - intros Hfew. rewrite take_ge; [done|].
    rewrite Hperm, tally_length. lia.
Qed.

(** X12: the counts of top_senders, and of top_recipients, are all at least
    1 and add up to at most total_transactions; they add up to exactly
    total_transactions when there are at most five distinct keys. *)
Theorem top_counts_add_up txs l s :
  transform style txs = Ok (Pair l s) →
  Forall (λ p, 1 ≤ p.2) (top_senders s)
  ∧ Forall (λ p, 1 ≤ p.2) (top_recipients s)
  ∧ count_sum (top_senders s) ≤ total_transactions s
  ∧ count_sum (top_recipients s) ≤ total_transactions s
  ∧ ((length (remove_dups (sender <$> txs)) ≤ 5)%nat →
     count_sum (top_senders s) = total_transactions s)
  ∧ ((length (remove_dups (recipient <$> txs)) ≤ 5)%nat →
     count_sum (top_recipients s) = total_transactions s).
Proof.
  intros Htr. destruct txs as [|t txs]; [done|].
  destruct (transform_nonempty style (t :: txs)) as (l0 & Hl0 & E); [done|].
  rewrite E in Htr. injection Htr as <- <-.
  cbn [top_senders top_recipients total_transactions].
  rewrite <- (Forall2_length _ _ _ Hl0).
  assert (∀ keys, Forall (λ p, 1 ≤ p.2) (Counter.top5 (tally keys))) as Hpos.
  { intros keys. apply Forall_forall. intros [k c] Hin%elem_of_top5.
    apply tally_elem in Hin as [Hk ->]. apply occurrences_pos in Hk.
    cbn. lia. }
  destruct (top5_count_sum (sender <$> t :: txs)) as [Hs1 Hs2].
  destruct (top5_count_sum (recipient <$> t :: txs)) as [Hr1 Hr2].
  rewrite !length_fmap in Hs1, Hs2, Hr1, Hr2.
  by repeat split.
Qed.


End CountProperties.

(** ** The further properties at work *)

Lemma extract_converts_every_row_witness :
  length (extract sample_csv_rows sample_py_float sample_world INPUT_FILE)
  = 1%nat
  ∧ Forall2 (row_gives sample_py_float) [sample_row]
      (extract sample_csv_rows sample_py_float sample_world INPUT_FILE).
Proof.
  apply (extract_converts_every_row sample_csv_rows sample_py_float
           sample_world INPUT_FILE "sender,recipient,amount,timestamp"
           [sample_row]).
  - reflexivity.
  - reflexivity.
  - constructor; [|constructor].
    exists (raw_record "A" "B" 10%float "2023-1-2 3:04:05"), "10.0"%string.
    repeat split; reflexivity.
Defined.



Lemma main_rerun_changes_no_file_witness :
  ∃ w1 w2,
    main Datetime.ZeroFilled sample_csv_rows sample_py_float sample_json_dump
      sample_world = Ok w1
    ∧ main Datetime.ZeroFilled sample_csv_rows sample_py_float
        sample_json_dump w1 = Ok w2
    ∧ files w2 = files w1.
Proof.
  eexists _, _. split; [vm_compute; reflexivity|].
  split; [vm_compute; reflexivity|].
  eapply (main_rerun_changes_no_file Datetime.ZeroFilled sample_csv_rows
            sample_py_float sample_json_dump sample_world).
  - vm_compute; reflexivity.
  - vm_compute; reflexivity.
Defined.

Lemma transform_again_witness :
  ∃ l s,
    transform Datetime.ZeroFilled scenario = Ok (Pair l s)
    ∧ transform Datetime.ZeroFilled l = Ok (Pair l s).
Proof.
  eexists _, _. split; [vm_compute; reflexivity|].
  eapply (transform_again Datetime.ZeroFilled scenario).
  vm_compute; reflexivity.
Defined.

Lemma summary_ignores_timestamps_witness :
  ∃ l1 s1 l2 s2,
    transform Datetime.ZeroFilled scenario = Ok (Pair l1 s1)
    ∧ transform Datetime.ZeroFilled
        [raw_record "A" "B" 10%float "x"; raw_record "A" "C" 5%float "y";
         raw_record "B" "A" 10%float "2024-02-29 00:00:00"]
      = Ok (Pair l2 s2)
    ∧ s1 = s2.
Proof.
  eexists _, _, _, _. split; [vm_compute; reflexivity|].
  split; [vm_compute; reflexivity|].
  eapply (summary_ignores_timestamps Datetime.ZeroFilled scenario
            [raw_record "A" "B" 10%float "x"; raw_record "A" "C" 5%float "y";
             raw_record "B" "A" 10%float "2024-02-29 00:00:00"]).
  - repeat constructor.
  - vm_compute; reflexivity.
  - vm_compute; reflexivity.
Defined.

Lemma unknown_iff_unparsable_witness :
  ∃ l s t t',
    transform Datetime.ZeroFilled scenario = Ok (Pair l s)
    ∧ scenario !! 2%nat = Some t ∧ l !! 2%nat = Some t'
    ∧ (date t' = Some UNKNOWN
       ↔ ∃ e, Datetime.strptime (timestamp t) = Raise e)
    ∧ (time t' = Some UNKNOWN
       ↔ ∃ e, Datetime.strptime (timestamp t) = Raise e)
    ∧ (day_of_week t' = Some UNKNOWN
       ↔ ∃ e, Datetime.strptime (timestamp t) = Raise e).
Proof.
  eexists _, _, _, _. split; [vm_compute; reflexivity|].
  split; [reflexivity|]. split; [reflexivity|].
  eapply (unknown_iff_unparsable Datetime.ZeroFilled scenario _ _ 2).
  - vm_compute; reflexivity.
  - reflexivity.
  - reflexivity.
Defined.

Lemma derived_fields_shape_witness :
  ∃ l s t',
    transform Datetime.Unfilled
      [raw_record "A" "B" 10%float "2023-1-2 3:04:05"] = Ok (Pair l s)
    ∧ l !! 0%nat = Some t'
    ∧ date t' = Some "2023-01-02"%string ∧ time t' = Some "03:04:05"%string
    ∧ day_of_week t' = Some "Monday"%string.
Proof.
  destruct (derived_fields_shape Datetime.Unfilled
              [raw_record "A" "B" 10%float "2023-1-2 3:04:05"]
              [mk_tx "A" "B" 10%float "2023-1-2 3:04:05" (Some "$10.00")
                 (Some "2023-01-02") (Some "03:04:05") (Some "Monday")]
              (mk_summary 1 (Num.PyFloat 10%float) (Num.PyFloat 10%float)
                 [("A"%string, 1)] [("B"%string, 1)])
              0
              (raw_record "A" "B" 10%float "2023-1-2 3:04:05")
              (mk_tx "A" "B" 10%float "2023-1-2 3:04:05" (Some "$10.00")
                 (Some "2023-01-02") (Some "03:04:05") (Some "Monday"))
              (Datetime.mk_dt 2023 1 2 3 4 5))
    as (d & tm & w & Hd & Htm & Hw & _).
  - vm_compute; reflexivity.
  - reflexivity.
  - reflexivity.
  - vm_compute; reflexivity.
  - eexists _, _, _. split; [vm_compute; reflexivity|].
    split; [reflexivity|]. repeat split; reflexivity.
Defined.

Lemma top_counts_add_up_witness :
  ∃ l s,
    transform Datetime.ZeroFilled scenario = Ok (Pair l s)
    ∧ count_sum (top_senders s) ≤ total_transactions s
    ∧ count_sum (top_recipients s) ≤ total_transactions s.
Proof.
  eexists _, _. split; [vm_compute; reflexivity|].
  destruct (top_counts_add_up Datetime.ZeroFilled scenario
              [mk_tx "A" "B" 10%float "2023-01-02 10:00:00" (Some "$10.00")
                 (Some "2023-01-02") (Some "10:00:00") (Some "Monday");
               mk_tx "A" "C" 5%float "2023-01-02 11:00:00" (Some "$5.00")
                 (Some "2023-01-02") (Some "11:00:00") (Some "Monday");
               mk_tx "B" "A" 10%float "bad-timestamp" (Some "$10.00")
                 (Some "Unknown") (Some "Unknown") (Some "Unknown")]
              (mk_summary 3 (Num.PyFloat 25%float)
                 (Num.PyFloat (PrimFloat.div 25 3))
                 [("A"%string, 2); ("B"%string, 1)]
                 [("B"%string, 1); ("C"%string, 1); ("A"%string, 1)]))
    as (_ & _ & Hs & Hr & _); [vm_compute; reflexivity|].
  split; [exact Hs|exact Hr].
Defined.

